(** * Webhook bridge (main.py): a shallow embedding and its properties

    The program is a FastAPI application with four routes and a lifespan
    manager that owns one Playwright browser.  The embedding follows the
    source function by function:

    - Python values that travel as JSON are values of [json];
    - Python exceptions are values of [exn], and [except C] clauses test
      membership in the class [C] in the order they are written;
    - every coroutine is a computation in a state-and-exception monad
      [M St A]; the state holds the module globals [browser] and [page]
      and the list of calls made to the outside (log lines, browser driver
      calls, outbound HTTP requests);
    - what the outside answers (the navigation, the in-page [fetch], the
      outbound POST, the clock) is read from a [world] record, so every
      result below is quantified over all behaviours of the outside;
    - library functions the source only calls ([json.loads], [json.dumps],
      [str], [int]) are parameters of the development;
    - building a [JSONResponse] renders its content and raises when the
      content holds a number that is not finite; [async with
      httpx.AsyncClient()] is folded into the one call [client.post] it
      surrounds, and a call recorded as [ClientPost] is a call of
      [client.post], whatever httpx then does with it. *)

From Stdlib Require Import ZArith Ascii String List Bool.
From stdpp Require Import base strings gmap list.

Import ListNotations.
Set Warnings "-register-all".
Local Open Scope Z_scope.
Local Open Scope string_scope.

(** ** JSON values *)

(** A Python [float]: a finite number, kept as its literal, or one of the
    three values that are not finite.  [json.loads] yields [inf] for a
    literal that overflows (1e400) and accepts the tokens Infinity,
    -Infinity and NaN; the browser hands the same values over for the
    numbers of a page. *)
Inductive pyfloat : Type :=
| finite (literal : string)
| inf
| neg_inf
| nan.

(** [math.isfinite(x)] *)
Definition isfinite (x : pyfloat) : bool :=
  match x with
  | finite _ => true
  | _ => false
  end.

(** A Python value obtained from, or destined to, JSON.  A [dict] keeps its
    insertion order, so an object is an association list.  A [string] is
    text, the bytes of its UTF-8 encoding: it always encodes, and a Python
    [str] that holds a lone surrogate, which UTF-8 cannot encode, is not a
    value of [string]. *)
Inductive json : Type :=
| JNull
| JBool (b : bool)
| JInt (n : Z)
| JFloat (x : pyfloat)
| JStr (s : string)
| JArr (items : list json)
| JObj (fields : list (string * json)).

(** [json.dumps(v, allow_nan=False)] succeeds: no number in [v] is
    infinite or NaN.  This is what rendering a [JSONResponse] asks of its
    content. *)
Fixpoint renderable (v : json) : bool :=
  match v with
  | JFloat x => isfinite x
  | JArr items => forallb renderable items
  | JObj fields => forallb (fun kv => let '(_, x) := kv in renderable x) fields
  | _ => true
  end.

(** [isinstance(v, dict)] *)
Definition isinstance_dict (v : json) : bool :=
  match v with
  | JObj _ => true
  | _ => false
  end.

Fixpoint assoc_get (k : string) (fields : list (string * json)) : option json :=
  match fields with
  | [] => None
  | (k', v) :: rest => if String.eqb k k' then Some v else assoc_get k rest
  end.

(** [k in d] for a dict [d]; [false] on a value that is not a dict. *)
Definition has_field (k : string) (v : json) : bool :=
  match v with
  | JObj fields => match assoc_get k fields with Some _ => true | None => false end
  | _ => false
  end.

(** [d[k]] as an option. *)
Definition field (k : string) (v : json) : option json :=
  match v with
  | JObj fields => assoc_get k fields
  | _ => None
  end.

(** ** Exceptions *)

(** The exceptions the program raises or meets.  [OtherException] stands for
    an instance of any further subclass of [Exception] (Playwright's [Error],
    httpx's [TransportError], [AttributeError], [UnicodeDecodeError], ...);
    its argument is [str(e)].  [NonException] stands for an instance of
    [BaseException] outside [Exception] ([asyncio.CancelledError],
    [KeyboardInterrupt]). *)
Inductive exn : Type :=
| JSONDecodeError (msg : string)
| HTTPException (status_code : Z) (detail : string)
| OtherException (msg : string)
| NonException (msg : string).

(** The classes named in the [except] clauses of the source. *)
Inductive exc_class : Type :=
| cls_JSONDecodeError
| cls_Exception.

(** [isinstance(e, C)]: [json.JSONDecodeError] is a [ValueError] and
    [HTTPException] derives from [Exception]. *)
Definition isinstance (e : exn) (c : exc_class) : bool :=
  match c, e with
  | cls_JSONDecodeError, JSONDecodeError _ => true
  | cls_JSONDecodeError, _ => false
  | cls_Exception, NonException _ => false
  | cls_Exception, _ => true
  end.

Inductive outcome (A : Type) : Type :=
| Returned (a : A)
| Raised (e : exn).
Arguments Returned {A} a.
Arguments Raised {A} e.

(** ** The monad of coroutines *)

Module Coroutine.

Definition M (St A : Type) : Type := St -> outcome A * St.

Definition ret {St A} (a : A) : M St A := fun s => (Returned a, s).

Definition raise {St A} (e : exn) : M St A := fun s => (Raised e, s).

Definition bind {St A B} (m : M St A) (k : A -> M St B) : M St B :=
  fun s =>
    match m s with
    | (Returned a, s') => k a s'
    | (Raised e, s') => (Raised e, s')
    end.

(** The first clause whose class contains the exception. *)
Fixpoint select_handler {H : Type} (e : exn) (clauses : list (exc_class * H))
  : option H :=
  match clauses with
  | [] => None
  | (c, h) :: rest => if isinstance e c then Some h else select_handler e rest
  end.

(** [try: body  except C1 as e: h1 e  except C2 as e: h2 e ...] *)
Definition try_except {St A} (body : M St A)
           (clauses : list (exc_class * (exn -> M St A))) : M St A :=
  fun s =>
    match body s with
    | (Returned a, s') => (Returned a, s')
    | (Raised e, s') =>
        match select_handler e clauses with
        | Some h => h e s'
        | None => (Raised e, s')
        end
    end.

(** [try: body  finally: cleanup].  The cleanup runs on every exit of the
    body; an exception of the cleanup replaces the outcome of the body. *)
Definition try_finally {St A} (body : M St A) (cleanup : M St unit) : M St A :=
  fun s =>
    match body s with
    | (r, s') =>
        match cleanup s' with
        | (Returned _, s'') => (r, s'')
        | (Raised e, s'') => (Raised e, s'')
        end
    end.

(** [if c: body] *)
Definition when {St} (c : bool) (body : M St unit) : M St unit :=
  if c then body else ret tt.

End Coroutine.
Import Coroutine.

Notation "x <- m ;; k" := (bind m (fun x => k))
  (at level 90, m at level 80, right associativity).
Notation "m ;;; k" := (bind m (fun _ => k))
  (at level 90, right associativity).

(** ** Objects of the libraries *)

(** Playwright's driver, browser and page objects, known by an identifier. *)
Inductive Playwright : Type := PlaywrightObj (id : nat).
Inductive Browser : Type := BrowserObj (id : nat).
Inductive Page : Type := PageObj (id : nat).

(** The incoming [Request]: its raw body. *)
Record Request : Type := mkRequest { body : string }.

(** An [httpx.Response]: its status code and raw content. *)
Record Response : Type := mkResponse {
  resp_status_code : Z;
  resp_content : string
}.

(** [JSONResponse(status_code=..., content=...)] *)
Inductive JSONResponse : Type :=
| mkJSONResponse (status_code : Z) (content : json).

(** A JavaScript promise once settled. *)
Inductive promise (A : Type) : Type :=
| Fulfilled (a : A)
| Rejected (message : string).
Arguments Fulfilled {A} a.
Arguments Rejected {A} message.

Definition p_then {A B} (p : promise A) (f : A -> promise B) : promise B :=
  match p with
  | Fulfilled a => f a
  | Rejected m => Rejected m
  end.

Definition p_catch {A} (p : promise A) (h : string -> promise A) : promise A :=
  match p with
  | Fulfilled a => Fulfilled a
  | Rejected m => h m
  end.

(** The [Response] seen by the script in the page: [response.json()] is a
    promise of its own. *)
Record js_response : Type := mkJsResponse {
  js_status : Z;
  js_statusText : string;
  js_json : promise json
}.

(** The options object passed to [fetch]. *)
Record fetch_init : Type := mkFetchInit {
  fi_method : string;
  fi_headers : list (string * string);
  fi_body : string
}.

(** ** Calls to the outside *)

Inductive event : Type :=
| LogInfo (msg : string)
| LogError (msg : string)
| PlaywrightStart
| ChromiumLaunch (headless : bool)
| NewPage
| Yield
| BrowserClose
| PlaywrightStop
| PageGoto (url : string)
| PageEvaluate (arg : string)
| ClientPost (url : string) (json_body : json) (headers : list (string * string)).

(** ** The outside *)

(** What the outside answers during one request. *)
Record world : Type := mkWorld {
  (** [await page.goto(url)] returns or raises *)
  goto_outcome : string -> outcome unit;
  (** [window.location.href] once the navigation is over *)
  location_href : string;
  (** [await page.evaluate(...)] failing in the driver itself (the session
      is lost, the execution context is destroyed) *)
  evaluate_failure : option exn;
  (** the settlement of [fetch(url, init)] inside the page *)
  fetch : string -> fetch_init -> promise js_response;
  (** [await client.post(url, json=..., headers=...)] inside
      [async with httpx.AsyncClient() as client] *)
  post_outcome : string -> json -> list (string * string) -> outcome Response;
  (** the clock, as [logging.Formatter().formatTime] prints it *)
  asctime : string
}.

(** ** Program state *)

(** The module globals [browser] and [page], and the calls made so far. *)
Record state : Type := mkState {
  browser : option Browser;
  page : option Page;
  calls : list event
}.

Definition emit (ev : event) (s : state) : state :=
  {| browser := browser s; page := page s; calls := calls s ++ [ev] |}.

Definition logger_info (msg : string) : M state unit :=
  fun s => (Returned tt, emit (LogInfo msg) s).

Definition logger_error (msg : string) : M state unit :=
  fun s => (Returned tt, emit (LogError msg) s).

(** The local variables of [lifespan] next to the globals: [playwright] is
    bound once [async_playwright().start()] has returned. *)
Record frame : Type := mkFrame {
  globals : state;
  playwright : option Playwright
}.

(** What the outside answers during the life of the server. *)
Record lifecycle : Type := mkLifecycle {
  start_outcome : outcome Playwright;
  launch_outcome : outcome Browser;
  new_page_outcome : outcome Page;
  (** what reaches the [yield]: the plain resumption at shutdown, or an
      exception thrown into the generator *)
  serve_outcome : outcome unit;
  close_outcome : outcome unit;
  stop_outcome : outcome unit
}.

(** The module as imported: [browser = None], [page = None]. *)
Definition initial_state : state :=
  {| browser := None; page := None; calls := [] |}.

Definition initial_frame : frame :=
  {| globals := initial_state; playwright := None |}.

(** ** The framework around a route *)

(** What the client receives: a status with a JSON body, or the failure of
    the server on an exception that is not an [HTTPException]. *)
Inductive reply : Type :=
| Reply (status : Z) (content : json)
| Unhandled (e : exn).

(** FastAPI sends a returned [JSONResponse] as it is and turns a raised
    [HTTPException] into its status code with the body [{"detail": ...}]. *)
Definition respond (o : outcome JSONResponse) : reply :=
  match o with
  | Returned (mkJSONResponse c b) => Reply c b
  | Raised (HTTPException c d) => Reply c (JObj [("detail", JStr d)])
  | Raised e => Unhandled e
  end.

(** A route that returns a [dict] answers 200 with that [dict]. *)
Definition respond_dict (o : outcome json) : reply :=
  match o with
  | Returned d => Reply 200 d
  | Raised (HTTPException c d) => Reply c (JObj [("detail", JStr d)])
  | Raised e => Unhandled e
  end.

Inductive route : Type :=
| GET_root
| GET_health
| POST_webhook
| POST_webhook_direct.

(** ** The program *)

(** The interpreter and the libraries under the module: the process
    environment [os.environ] and the functions the source only calls,
    [int] on a string, [json.loads], [json.dumps] without and with
    [indent], [str] on a JSON value and on an [HTTPException].

    [json_loads] is [json.loads] on the raw bytes of a body, as
    [request.json()] and [response.json()] apply it: it returns the value,
    raises [JSONDecodeError] on text that is not syntactically JSON, and may
    raise something else on bytes that are no text at all
    ([UnicodeDecodeError], an [OtherException] here). *)
Class Platform : Type := mkPlatform {
  environ : gmap string string;
  int : string -> Z;
  json_loads : string -> outcome json;
  json_dumps : json -> string;
  json_dumps_indent : Z -> json -> string;
  str_value : json -> string;
  str_HTTPException : Z -> string -> string
}.

Section Program.

Context {platform : Platform}.

(** [str(e)] *)
Definition str (e : exn) : string :=
  match e with
  | JSONDecodeError msg => msg
  | HTTPException c d => str_HTTPException c d
  | OtherException msg => msg
  | NonException msg => msg
  end.

(** [os.getenv(key, default)] *)
Definition os_getenv (key default : string) : string :=
  match environ !! key with
  | Some v => v
  | None => default
  end.

(** [PORT = int(os.getenv("PORT", 3005))] *)
Definition PORT : Z :=
  match environ !! "PORT" with
  | Some v => int v
  | None => 3005
  end.

Definition WEBHOOK_URL : string :=
  os_getenv "WEBHOOK_URL"
    "https://n8n.produkmastah.com/webhook-test/3df77d1c-6227-41ee-b4ea-32b8d02f6405".

Variable w : world.

(** *** Calls through the globals and the libraries *)

(** [type(v).__name__] *)
Definition type_name (v : json) : string :=
  match v with
  | JNull => "NoneType"
  | JBool _ => "bool"
  | JInt _ => "int"
  | JFloat _ => "float"
  | JStr _ => "str"
  | JArr _ => "list"
  | JObj _ => "dict"
  end.

(** The [AttributeError] of [v.attr] on a value without that attribute. *)
Definition AttributeError (type attr : string) : exn :=
  OtherException
    ("'" +:+ type +:+ "' object has no attribute '" +:+ attr +:+ "'").

(** [await request.json()] *)
Definition request_json (request : Request) : M state json :=
  fun s => (json_loads (body request), s).

(** [await page.goto(url)] through the global [page] *)
Definition page_goto (url : string) : M state unit :=
  fun s =>
    match page s with
    | None => (Raised (AttributeError "NoneType" "goto"), s)
    | Some _ => (goto_outcome w url, emit (PageGoto url) s)
    end.

(** [await page.evaluate(script, arg)]: the driver may fail; otherwise
    the script runs in the page and its promise is awaited, a rejection
    surfacing as an error of the driver. *)
Definition page_evaluate (script : string -> promise json) (arg : string)
  : M state json :=
  fun s =>
    match page s with
    | None => (Raised (AttributeError "NoneType" "evaluate"), s)
    | Some _ =>
        let s' := emit (PageEvaluate arg) s in
        match evaluate_failure w with
        | Some e => (Raised e, s')
        | None =>
            match script arg with
            | Fulfilled v => (Returned v, s')
            | Rejected m => (Raised (OtherException m), s')
            end
        end
    end.

(** [async with httpx.AsyncClient() as client:
       response = await client.post(url, json=payload, headers=headers)] *)
Definition client_post (url : string) (payload : json)
           (headers : list (string * string)) : M state Response :=
  fun s => (post_outcome w url payload headers,
            emit (ClientPost url payload headers) s).

(** [response.json()] *)
Definition response_json (response : Response) : M state json :=
  fun s => (json_loads (resp_content response), s).

(** [d.get(key, default)] *)
Definition dict_get (d : json) (key : string) (default : json) : M state json :=
  match d with
  | JObj fields =>
      match assoc_get key fields with
      | Some v => ret v
      | None => ret default
      end
  | _ => raise (AttributeError (type_name d) "get")
  end.

(** [JSONResponse(status_code=..., content=...)]: the constructor renders
    the content with [json.dumps(..., allow_nan=False)], which raises
    [ValueError] on a number that is not finite. *)
Definition ValueError_out_of_range : exn :=
  OtherException "Out of range float values are not JSON compliant".

Definition make_JSONResponse (status_code : Z) (content : json)
  : M state JSONResponse :=
  if renderable content
  then ret (mkJSONResponse status_code content)
  else raise ValueError_out_of_range.

(** *** The script run in the page (lines 145-167) *)

Definition forward_script (data : string) : promise json :=
  p_catch
    (p_then
       (fetch w (location_href w)
              {| fi_method := "POST";
                 fi_headers := [("Content-Type", "application/json")];
                 fi_body := data |})
       (fun response =>
          p_catch
            (p_then (js_json response)
                    (fun j => Fulfilled
                       (JObj [("status", JInt (js_status response));
                              ("statusText", JStr (js_statusText response));
                              ("data", j)])))
            (fun _ => Fulfilled
               (JObj [("status", JInt (js_status response));
                      ("statusText", JStr (js_statusText response));
                      ("data", JNull)]))))
    (fun message => Fulfilled
       (JObj [("status", JInt 0);
              ("statusText", JStr "Network Error");
              ("error", JStr message)])).

(** *** Routes *)

Definition root : M state json :=
  ret (JObj [("status", JStr "healthy");
             ("service", JStr "webhook-bridge");
             ("port", JInt PORT);
             ("webhook_url", JStr WEBHOOK_URL)]).

Definition health_check : M state json :=
  ret (JObj [("status", JStr "healthy");
             ("timestamp", JStr (asctime w));
             ("config",
              JObj [("port", JInt PORT);
                    ("webhook_url", JStr WEBHOOK_URL);
                    ("log_level", JStr (os_getenv "LOG_LEVEL" "INFO"))])]).

Definition forward_via_browser (payload : json) : M state json :=
  try_except
    (page_goto WEBHOOK_URL ;;;
     let payload_json := json_dumps payload in
     result <- page_evaluate forward_script payload_json ;;
     ret result)
    [(cls_Exception, fun e =>
        logger_error ("Error during browser forwarding: " +:+ str e) ;;;
        ret (JObj [("status", JInt 500);
                   ("statusText", JStr "Browser Error");
                   ("error", JStr (str e))]))].

Definition receive_webhook (request : Request) : M state JSONResponse :=
  try_except
    (payload <- request_json request ;;
     logger_info ("Received webhook payload: " +:+ json_dumps_indent 2 payload) ;;;
     when (negb (isinstance_dict payload))
          (raise (HTTPException 400 "Payload harus berupa JSON object")) ;;;
     logger_info ("Forwarding payload to: " +:+ WEBHOOK_URL) ;;;
     result <- forward_via_browser payload ;;
     status <- dict_get result "status" (JStr "unknown") ;;
     logger_info ("Forwarding completed with status: " +:+ str_value status) ;;;
     make_JSONResponse 200
       (JObj [("message", JStr "Webhook processed successfully");
              ("forwarded_to", JStr WEBHOOK_URL);
              ("result", result)]))
    [(cls_JSONDecodeError, fun _ =>
        logger_error "Invalid JSON payload" ;;;
        raise (HTTPException 400 "Invalid JSON payload"));
     (cls_Exception, fun e =>
        logger_error ("Error processing webhook: " +:+ str e) ;;;
        raise (HTTPException 500 (str e)))].

Definition receive_webhook_direct (request : Request) : M state JSONResponse :=
  try_except
    (payload <- request_json request ;;
     logger_info ("Received direct webhook payload: "
                  +:+ json_dumps_indent 2 payload) ;;;
     response <- client_post WEBHOOK_URL payload
                   [("Content-Type", "application/json")] ;;
     logger_info ("Direct forwarding completed with status: "
                  +:+ str_value (JInt (resp_status_code response))) ;;;
     parsed <- (if String.eqb (resp_content response) ""
                then ret JNull
                else response_json response) ;;
     make_JSONResponse 200
       (JObj [("message",
               JStr "Webhook processed successfully via direct HTTP");
              ("forwarded_to", JStr WEBHOOK_URL);
              ("status_code", JInt (resp_status_code response));
              ("response", parsed)]))
    [(cls_Exception, fun e =>
        logger_error ("Error processing direct webhook: " +:+ str e) ;;;
        raise (HTTPException 500 (str e)))].

(** [@app.get("/")], [@app.get("/health")], [@app.post("/webhook")],
    [@app.post("/webhook/direct")] *)
Definition app (r : route) (request : Request) (s : state) : reply * state :=
  match r with
  | GET_root => let (o, s') := root s in (respond_dict o, s')
  | GET_health => let (o, s') := health_check s in (respond_dict o, s')
  | POST_webhook => let (o, s') := receive_webhook request s in (respond o, s')
  | POST_webhook_direct =>
      let (o, s') := receive_webhook_direct request s in (respond o, s')
  end.

(** *** The lifespan manager *)

Variable lc : lifecycle.

Definition on_globals {A} (m : M state A) : M frame A :=
  fun f =>
    let (o, s') := m (globals f) in
    (o, {| globals := s'; playwright := playwright f |}).

Definition call {A} (ev : event) (o : outcome A) : M frame A :=
  on_globals (fun s => (o, emit ev s)).

Definition set_playwright (p : Playwright) : M frame unit :=
  fun f => (Returned tt, {| globals := globals f; playwright := Some p |}).

Definition set_browser (b : Browser) : M frame unit :=
  on_globals (fun s =>
    (Returned tt, {| browser := Some b; page := page s; calls := calls s |})).

Definition set_page (p : Page) : M frame unit :=
  on_globals (fun s =>
    (Returned tt, {| browser := browser s; page := Some p; calls := calls s |})).

(** the global [browser], read *)
Definition get_browser : M frame (option Browser) :=
  fun f => (Returned (browser (globals f)), f).

(** [locals().get('playwright')] *)
Definition get_playwright : M frame (option Playwright) :=
  fun f => (Returned (playwright f), f).

Definition lifespan : M frame unit :=
  on_globals (logger_info "Inisialisasi browser Playwright...") ;;;
  try_finally
    (try_except
       (p <- call PlaywrightStart (start_outcome lc) ;;
        set_playwright p ;;;
        b <- call (ChromiumLaunch true) (launch_outcome lc) ;;
        set_browser b ;;;
        pg <- call NewPage (new_page_outcome lc) ;;
        set_page pg ;;;
        on_globals (logger_info "Browser berhasil diinisialisasi") ;;;
        call Yield (serve_outcome lc))
       [(cls_Exception, fun e =>
           on_globals (logger_error
             ("Error saat inisialisasi browser: " +:+ str e)) ;;;
           raise e)])
    (b <- get_browser ;;
     when (bool_decide (is_Some b))
          (call BrowserClose (close_outcome lc) ;;;
           on_globals (logger_info "Browser ditutup")) ;;;
     p <- get_playwright ;;
     when (bool_decide (is_Some p))
          (call PlaywrightStop (stop_outcome lc))).

End Program.


(** ** Vocabulary of the properties *)

Definition is_browser_call (ev : event) : bool :=
  match ev with
  | PageGoto _ | PageEvaluate _ => true
  | _ => false
  end.

Definition is_post (ev : event) : bool :=
  match ev with
  | ClientPost _ _ _ => true
  | _ => false
  end.

Definition is_close (ev : event) : bool :=
  match ev with
  | BrowserClose => true
  | _ => false
  end.

Definition is_stop (ev : event) : bool :=
  match ev with
  | PlaywrightStop => true
  | _ => false
  end.

(** The calls to the browser driver, and the outbound POSTs, made so far. *)
Definition browser_calls (s : state) : list event :=
  List.filter is_browser_call (calls s).

Definition posts (s : state) : list event :=
  List.filter is_post (calls s).

(** How many times the browser was closed and the driver stopped. *)
Definition closes (f : frame) : nat :=
  length (List.filter is_close (calls (globals f))).

Definition stops (f : frame) : nat :=
  length (List.filter is_stop (calls (globals f))).

Definition returns {A} (o : outcome A) : bool :=
  match o with
  | Returned _ => true
  | Raised _ => false
  end.

(** The driver was started; a browser was created. *)
Definition driver_started (lc : lifecycle) : bool :=
  returns (start_outcome lc).

Definition browser_created (lc : lifecycle) : bool :=
  returns (start_outcome lc) && returns (launch_outcome lc).

(** The three shapes of a [ForwardResult] that carries a failure or a
    response. *)
Definition fetched_result (status : Z) (statusText : string) (data : json) : json :=
  JObj [("status", JInt status); ("statusText", JStr statusText); ("data", data)].

Definition network_error_result (message : string) : json :=
  JObj [("status", JInt 0); ("statusText", JStr "Network Error");
        ("error", JStr message)].

Definition browser_error_result (message : string) : json :=
  JObj [("status", JInt 500); ("statusText", JStr "Browser Error");
        ("error", JStr message)].

(** The four branches of the browser adapter. *)
Inductive ForwardResult : json -> Prop :=
| fetch_with_json status statusText data :
    ForwardResult (fetched_result status statusText data)
| fetch_without_json status statusText :
    ForwardResult (fetched_result status statusText JNull)
| fetch_rejected message :
    ForwardResult (network_error_result message)
| driver_failed message :
    ForwardResult (browser_error_result message).

(** The success envelopes of the two POST routes. *)
Definition webhook_envelope (forwarded_to : string) (result : json) : json :=
  JObj [("message", JStr "Webhook processed successfully");
        ("forwarded_to", JStr forwarded_to);
        ("result", result)].

Definition direct_envelope (forwarded_to : string) (status_code : Z)
           (response : json) : json :=
  JObj [("message", JStr "Webhook processed successfully via direct HTTP");
        ("forwarded_to", JStr forwarded_to);
        ("status_code", JInt status_code);
        ("response", response)].

(** The body FastAPI sends for an [HTTPException]. *)
Definition error_body (detail : string) : json :=
  JObj [("detail", JStr detail)].

(** The headers of the outbound POST. *)
Definition content_type_json : list (string * string) :=
  [("Content-Type", "application/json")].

(** [response.json() if response.content else None] *)
Definition upstream_body `{Platform} (response : Response) : outcome json :=
  if String.eqb (resp_content response) ""
  then Returned JNull
  else json_loads (resp_content response).

(** The errors the driver raises are instances of [Exception], as
    Playwright's are. *)
Definition driver_errors_are_exceptions (w : world) (url : string) : Prop :=
  (forall e, goto_outcome w url = Raised e -> isinstance e cls_Exception = true)
  /\ (forall e, evaluate_failure w = Some e -> isinstance e cls_Exception = true).

(** An error raised while driving the browser for one forward: the global
    [page] is missing, the navigation raises, or the evaluation raises. *)
Inductive raised_while_driving (w : world) (url : string) (s : state)
  : exn -> Prop :=
| page_missing :
    page s = None ->
    raised_while_driving w url s (AttributeError "NoneType" "goto")
| navigation_raised e :
    page s <> None ->
    goto_outcome w url = Raised e ->
    raised_while_driving w url s e
| evaluation_raised e :
    page s <> None ->
    goto_outcome w url = Returned tt ->
    evaluate_failure w = Some e ->
    raised_while_driving w url s e.

(** Nothing answers at [url]: Playwright's navigation raises its [Error],
    a [fetch] of [url] is rejected, and httpx raises its [ConnectError]. *)
Definition target_unreachable (w : world) (url : string) : Prop :=
  (exists m, goto_outcome w url = Raised (OtherException m))
  /\ (forall init, exists m, fetch w url init = Rejected m)
  /\ (forall payload headers,
        exists m, post_outcome w url payload headers = Raised (OtherException m)).

(** The reply announced for an unreachable target on [/webhook]: 200 with a
    result of status 0 and status text "Network Error". *)
Definition network_error_reply (r : reply) : Prop :=
  exists c result,
    r = Reply 200 c
    /\ field "result" c = Some result
    /\ field "status" result = Some (JInt 0)
    /\ field "statusText" result = Some (JStr "Network Error").

(** ** Vocabulary of the further properties *)

(** Between [s] and [s'] the globals are the same and no call selected by
    [p] was made. *)
Definition unchanged (p : event -> bool) (s s' : state) : Prop :=
  browser s' = browser s
  /\ page s' = page s
  /\ List.filter p (calls s') = List.filter p (calls s).

(** The computation [m] keeps the relation [R] between the state it starts
    in and the state it ends in, whether it returns or raises. *)
Definition preserves {A} (R : state -> state -> Prop) (m : M state A) : Prop :=
  forall s, R s (snd (m s)).

Definition no_event (ev : event) : bool := false.

(** The last call made. *)
Definition last_call (s : state) : option event := last (calls s).

(** The release calls of a lifespan, in the order they were made. *)
Definition is_release (ev : event) : bool := is_close ev || is_stop ev.

Definition releases (f : frame) : list event :=
  List.filter is_release (calls (globals f)).

(** The calls from the first release call on. *)
Fixpoint from_first_release (l : list event) : list event :=
  match l with
  | [] => []
  | ev :: rest => if is_release ev then ev :: rest else from_first_release rest
  end.

Definition is_yield (ev : event) : bool :=
  match ev with
  | Yield => true
  | _ => false
  end.

(** The first initialisation step that raised, if any. *)
Definition startup_error (lc : lifecycle) : option exn :=
  match start_outcome lc with
  | Raised e => Some e
  | Returned _ =>
      match launch_outcome lc with
      | Raised e => Some e
      | Returned _ =>
          match new_page_outcome lc with
          | Raised e => Some e
          | Returned _ => None
          end
      end
  end.

(** The release steps that run, return. *)
Definition cleanup_returns (lc : lifecycle) : bool :=
  (negb (browser_created lc) || returns (close_outcome lc))
  && (negb (driver_started lc) || returns (stop_outcome lc)).

(** A new call of [lifespan] in a process whose globals are [s]: the
    locals are fresh, the globals are what earlier code left. *)
Definition fresh_frame (s : state) : frame :=
  {| globals := s; playwright := None |}.

(** The argument of [fetch] in the script. *)
Definition post_init (data : string) : fetch_init :=
  {| fi_method := "POST";
     fi_headers := [("Content-Type", "application/json")];
     fi_body := data |}.

(** The four ways [receive_webhook] ends, with the state it ends in. *)
Inductive webhook_end `{Platform} (request : Request) (s : state)
  : outcome JSONResponse * state -> Prop :=
| end_400 msg :
    json_loads (body request) = Raised (JSONDecodeError msg) ->
    webhook_end request s
      (Raised (HTTPException 400 "Invalid JSON payload"),
       emit (LogError "Invalid JSON payload") s)
| end_500 d s0 :
    (forall msg, json_loads (body request) <> Raised (JSONDecodeError msg)) ->
    webhook_end request s
      (Raised (HTTPException 500 d),
       emit (LogError ("Error processing webhook: " +:+ d)) s0)
| end_raised m s' :
    (forall msg, json_loads (body request) <> Raised (JSONDecodeError msg)) ->
    webhook_end request s (Raised (NonException m), s')
| end_200 fields result s' :
    json_loads (body request) = Returned (JObj fields) ->
    ForwardResult result ->
    webhook_end request s
      (Returned (mkJSONResponse 200 (webhook_envelope WEBHOOK_URL result)), s').

(** The three ways [receive_webhook_direct] ends. *)
Inductive direct_end `{Platform}
  : outcome JSONResponse * state -> Prop :=
| direct_end_500 d s0 :
    direct_end
      (Raised (HTTPException 500 d),
       emit (LogError ("Error processing direct webhook: " +:+ d)) s0)
| direct_end_raised m s' :
    direct_end (Raised (NonException m), s')
| direct_end_200 status_code parsed s' :
    direct_end
      (Returned (mkJSONResponse 200
                   (direct_envelope WEBHOOK_URL status_code parsed)), s').

(** ** Sample instances of the parameters and of the outside *)

Module Sample.

(** The one byte 0xff: not text in any encoding [json.loads] detects. *)
Definition byte_ff : string := String "255"%char "".

(** The body [{"a": NaN}]: not JSON by RFC 8259, accepted by [json.loads]. *)
Definition nan_object : string :=
  "{" +:+ String "034"%char "a" +:+ String "034"%char ": NaN}".

(** [json.loads] on the bodies used below, as CPython answers them. *)
Definition sample_loads (s : string) : outcome json :=
  if String.eqb s "{}" then Returned (JObj [])
  else if String.eqb s "42" then Returned (JInt 42)
  else if String.eqb s "[1,2]" then Returned (JArr [JInt 1; JInt 2])
  else if String.eqb s "1e400" then Returned (JFloat inf)
  else if String.eqb s nan_object then Returned (JObj [("a", JFloat nan)])
  else if String.eqb s byte_ff
       then Raised (OtherException
                      "'utf-8' codec can't decode byte 0xff in position 0: invalid start byte")
  else Raised (JSONDecodeError "Expecting value: line 1 column 1 (char 0)").

Definition sample_dumps (v : json) : string :=
  match v with
  | JObj [] => "{}"
  | JInt 42 => "42"
  | _ => "[1, 2]"
  end.

Definition sample_str (v : json) : string :=
  match v with
  | JInt 0 => "0"
  | JInt 200 => "200"
  | JInt 400 => "400"
  | JInt 404 => "404"
  | JInt 500 => "500"
  | JStr s => s
  | _ => "None"
  end.

(** No variable set in the environment; [str] of an [HTTPException] as
    Starlette prints it. *)
Definition platform : Platform :=
  {| environ := ∅;
     int := fun _ => 3005;
     json_loads := sample_loads;
     json_dumps := sample_dumps;
     json_dumps_indent := fun _ => sample_dumps;
     str_value := sample_str;
     str_HTTPException := fun c d => sample_str (JInt c) +:+ ": " +:+ d |}.

Definition url : string := @WEBHOOK_URL platform.

(** The target answers 200 with the body [{}]. *)
Definition online : world :=
  {| goto_outcome := fun _ => Returned tt;
     location_href := url;
     evaluate_failure := None;
     fetch := fun _ _ =>
       Fulfilled {| js_status := 200; js_statusText := "OK";
                    js_json := Fulfilled (JObj []) |};
     post_outcome := fun _ _ _ =>
       Returned {| resp_status_code := 200; resp_content := "{}" |};
     asctime := "2024-01-01 00:00:00,000" |}.

(** The target answers 404 with an empty body. *)
Definition not_found : world :=
  {| goto_outcome := fun _ => Returned tt;
     location_href := url;
     evaluate_failure := None;
     fetch := fun _ _ =>
       Fulfilled {| js_status := 404; js_statusText := "Not Found";
                    js_json := Rejected "Unexpected end of JSON input" |};
     post_outcome := fun _ _ _ =>
       Returned {| resp_status_code := 404; resp_content := "" |};
     asctime := "2024-01-01 00:00:00,000" |}.

(** Nothing listens at the target: the navigation raises, a [fetch] is
    rejected, the outbound POST raises. *)
Definition unreachable : world :=
  {| goto_outcome := fun _ =>
       Raised (OtherException "net::ERR_CONNECTION_REFUSED");
     location_href := "chrome-error://chromewebdata/";
     evaluate_failure := None;
     fetch := fun _ _ => Rejected "Failed to fetch";
     post_outcome := fun _ _ _ =>
       Raised (OtherException "All connection attempts failed");
     asctime := "2024-01-01 00:00:00,000" |}.

(** The target goes away between the navigation and the [fetch]. *)
Definition lost_after_navigation : world :=
  {| goto_outcome := fun _ => Returned tt;
     location_href := url;
     evaluate_failure := None;
     fetch := fun _ _ => Rejected "Failed to fetch";
     post_outcome := fun _ _ _ =>
       Raised (OtherException "All connection attempts failed");
     asctime := "2024-01-01 00:00:00,000" |}.

(** A server whose lifespan has reached its [yield]. *)
Definition ready : state :=
  {| browser := Some (BrowserObj 0); page := Some (PageObj 0); calls := [] |}.

(** A clean run: everything succeeds and the server is shut down. *)
Definition clean_run : lifecycle :=
  {| start_outcome := Returned (PlaywrightObj 0);
     launch_outcome := Returned (BrowserObj 0);
     new_page_outcome := Returned (PageObj 0);
     serve_outcome := Returned tt;
     close_outcome := Returned tt;
     stop_outcome := Returned tt |}.

(** The browser cannot be closed at shutdown. *)
Definition close_fails : lifecycle :=
  {| start_outcome := Returned (PlaywrightObj 0);
     launch_outcome := Returned (BrowserObj 0);
     new_page_outcome := Returned (PageObj 0);
     serve_outcome := Returned tt;
     close_outcome := Raised (OtherException "Connection closed");
     stop_outcome := Returned tt |}.

(** Chromium cannot be launched. *)
Definition launch_fails : lifecycle :=
  {| start_outcome := Returned (PlaywrightObj 0);
     launch_outcome := Raised (OtherException "Executable does not exist");
     new_page_outcome := Returned (PageObj 0);
     serve_outcome := Returned tt;
     close_outcome := Returned tt;
     stop_outcome := Returned tt |}.

(** The target answers 404 with the body [1e400], a number that overflows
    to infinity. *)
Definition overflow : world :=
  {| goto_outcome := fun _ => Returned tt;
     location_href := url;
     evaluate_failure := None;
     fetch := fun _ _ =>
       Fulfilled {| js_status := 404; js_statusText := "Not Found";
                    js_json := Fulfilled (JFloat inf) |};
     post_outcome := fun _ _ _ =>
       Returned {| resp_status_code := 404; resp_content := "1e400" |};
     asctime := "2024-01-01 00:00:00,000" |}.


(** The target answers 200 with a body that is not JSON. *)
Definition plain_text : world :=
  {| goto_outcome := fun _ => Returned tt;
     location_href := url;
     evaluate_failure := None;
     fetch := fun _ _ =>
       Fulfilled {| js_status := 200; js_statusText := "OK";
                    js_json := Rejected "Unexpected token O in JSON" |};
     post_outcome := fun _ _ _ =>
       Returned {| resp_status_code := 200; resp_content := "OK" |};
     asctime := "2024-01-01 00:00:00,000" |}.

(** The driver cannot be started. *)
Definition start_fails : lifecycle :=
  {| start_outcome := Raised (OtherException "Driver not found");
     launch_outcome := Returned (BrowserObj 1);
     new_page_outcome := Returned (PageObj 1);
     serve_outcome := Returned tt;
     close_outcome := Returned tt;
     stop_outcome := Returned tt |}.

(** No page can be opened, and then the browser cannot be closed. *)
Definition double_failure : lifecycle :=
  {| start_outcome := Returned (PlaywrightObj 0);
     launch_outcome := Returned (BrowserObj 0);
     new_page_outcome := Raised (OtherException "Target closed");
     serve_outcome := Returned tt;
     close_outcome := Raised (OtherException "Connection closed");
     stop_outcome := Returned tt |}.

(** An exception reaches the generator while the server is serving. *)
Definition crash_while_serving : lifecycle :=
  {| start_outcome := Returned (PlaywrightObj 0);
     launch_outcome := Returned (BrowserObj 0);
     new_page_outcome := Returned (PageObj 0);
     serve_outcome := Raised (OtherException "worker crashed");
     close_outcome := Returned tt;
     stop_outcome := Returned tt |}.

(** The browser is launched but no page can be opened. *)
Definition new_page_fails : lifecycle :=
  {| start_outcome := Returned (PlaywrightObj 0);
     launch_outcome := Returned (BrowserObj 0);
     new_page_outcome := Raised (OtherException "Target closed");
     serve_outcome := Returned tt;
     close_outcome := Returned tt;
     stop_outcome := Returned tt |}.

End Sample.

(** * Properties *)

Section Properties.

Context {platform : Platform}.

(** *** Laws of the coroutine monad *)

Lemma bind_returned {St A B} (m : M St A) (k : A -> M St B) s a s1 :
  m s = (Returned a, s1) -> bind m k s = k a s1.
Proof. unfold bind. intros ->. reflexivity. Qed.

Lemma bind_raised {St A B} (m : M St A) (k : A -> M St B) s e s1 :
  m s = (Raised e, s1) -> bind m k s = (Raised e, s1).
Proof. unfold bind. intros ->. reflexivity. Qed.

Lemma try_except_returned {St A} (body : M St A) clauses s a s1 :
  body s = (Returned a, s1) -> try_except body clauses s = (Returned a, s1).
Proof. unfold try_except. intros ->. reflexivity. Qed.

Lemma try_except_selected {St A} (body : M St A) clauses s e s1 h :
  body s = (Raised e, s1) ->
  select_handler e clauses = Some h ->
  try_except body clauses s = h e s1.
Proof. unfold try_except. intros -> ->. reflexivity. Qed.

Lemma select_first {H} (e : exn) (c : exc_class) (h : H) rest :
  isinstance e c = true -> select_handler e ((c, h) :: rest) = Some h.
Proof. simpl. intros ->. reflexivity. Qed.

Lemma select_next {H} (e : exn) (c : exc_class) (h : H) rest :
  isinstance e c = false ->
  select_handler e ((c, h) :: rest) = select_handler e rest.
Proof. simpl. intros ->. reflexivity. Qed.

(** Every [HTTPException] is caught by [except Exception]. *)
Lemma HTTPException_is_Exception (c : Z) (d : string) :
  isinstance (HTTPException c d) cls_Exception = true.
Proof. reflexivity. Qed.

(** *** The script and the browser adapter *)

(** The promise of the script is always fulfilled, in one of the first
    three shapes. *)
Lemma forward_script_fulfilled (w : world) (data : string) :
  exists v, forward_script w data = Fulfilled v /\ ForwardResult v.
Proof.
  unfold forward_script.
  destruct (fetch w (location_href w) _) as [response | message]; simpl.
  - destruct (js_json response) as [j | m]; simpl; eexists; split;
      try reflexivity.
    + apply fetch_with_json.
    + apply fetch_without_json.
  - eexists; split; [reflexivity | apply fetch_rejected].
Qed.


Lemma ForwardResult_is_dict (v : json) :
  ForwardResult v -> exists fields status,
    v = JObj fields /\ assoc_get "status" fields = Some status.
Proof. destruct 1; eexists; eexists; split; reflexivity. Qed.

Lemma raised_with_page (w : world) (url : string) (s : state) (pg : Page) e :
  page s = Some pg ->
  raised_while_driving w url s e ->
  goto_outcome w url = Raised e
  \/ (goto_outcome w url = Returned tt /\ evaluate_failure w = Some e).
Proof.
  intros Hpage Hraised.
  destruct Hraised as [Hnone | e Hsome Hnav | e Hsome Hnav Hfail].
  - congruence.
  - left; assumption.
  - right; split; assumption.
Qed.

Lemma raised_without_page (w : world) (url : string) (s : state) e :
  page s = None ->
  raised_while_driving w url s e ->
  e = AttributeError "NoneType" "goto".
Proof.
  intros Hpage Hraised.
  destruct Hraised as [Hnone | e Hsome Hnav | e Hsome Hnav Hfail];
    [reflexivity | contradiction | contradiction].
Qed.

(** The adapter returns, whatever the driver does, as long as the driver
    raises instances of [Exception]; an error of the driver is reported in
    the result. *)
Lemma forward_via_browser_returns (w : world) (payload : json) (s : state) :
  driver_errors_are_exceptions w WEBHOOK_URL ->
  exists result s',
    forward_via_browser w payload s = (Returned result, s')
    /\ ForwardResult result
    /\ (forall e, raised_while_driving w WEBHOOK_URL s e ->
          result = browser_error_result (str e)).
Proof.
  intros [Hgoto Heval].
  unfold forward_via_browser.
  destruct (page s) as [pg |] eqn:Hpage.
  - destruct (goto_outcome w WEBHOOK_URL) as [[] | e] eqn:Hnav.
    + destruct (evaluate_failure w) as [e |] eqn:Hfail.
      * erewrite try_except_selected with (e := e);
          [ | unfold bind, page_goto, page_evaluate; rewrite Hpage, Hnav;
              simpl; rewrite Hpage, Hfail; reflexivity
            | apply select_first, Heval, eq_refl ].
        eexists; eexists; split; [reflexivity | split].
        -- apply driver_failed.
        -- intros e' Hraised.
           destruct (raised_with_page _ _ _ _ _ Hpage Hraised)
             as [Hn | [_ Hf]]; unfold browser_error_result; congruence.
      * destruct (forward_script_fulfilled w (json_dumps payload))
          as (v & Hscript & Hv).
        erewrite try_except_returned;
          [ | unfold bind, page_goto, page_evaluate; rewrite Hpage, Hnav;
              simpl; rewrite Hpage, Hfail, Hscript; reflexivity ].
        eexists; eexists; split; [reflexivity | split].
        -- assumption.
        -- intros e' Hraised.
           destruct (raised_with_page _ _ _ _ _ Hpage Hraised)
             as [Hn | [_ Hf]]; unfold browser_error_result; congruence.
    + erewrite try_except_selected with (e := e);
        [ | unfold bind, page_goto; rewrite Hpage, Hnav; reflexivity
          | apply select_first, Hgoto, eq_refl ].
      eexists; eexists; split; [reflexivity | split].
      * apply driver_failed.
      * intros e' Hraised.
        destruct (raised_with_page _ _ _ _ _ Hpage Hraised)
          as [Hn | [Hn _]]; unfold browser_error_result; congruence.
  - erewrite try_except_selected with (e := AttributeError "NoneType" "goto");
      [ | unfold bind, page_goto; rewrite Hpage; reflexivity
        | reflexivity ].
    eexists; eexists; split; [reflexivity | split].
    + apply driver_failed.
    + intros e' Hraised.
      rewrite (raised_without_page _ _ _ _ Hpage Hraised). reflexivity.
Qed.

(** C4. The Browser-Relay Adapter never raises to its caller: whatever the
    payload, the target URL (set by the environment) and the state of the
    page, [forward_via_browser] returns a result, and when an error was
    raised while driving the browser (the navigation failed, the evaluation
    of the script failed, the page was lost) that result is the record with
    status 500, status text "Browser Error" and the message of the error in
    its [error] field. *)
Theorem forward_via_browser_never_raises
        (w : world) (payload : json) (s : state) :
  driver_errors_are_exceptions w WEBHOOK_URL ->
  exists result s',
    forward_via_browser w payload s = (Returned result, s')
    /\ (forall e, raised_while_driving w WEBHOOK_URL s e ->
          result = JObj [("status", JInt 500);
                         ("statusText", JStr "Browser Error");
                         ("error", JStr (str e))]).
Proof.
  intros Hdriver.
  destruct (forward_via_browser_returns w payload s Hdriver)
    as (result & s' & Hrun & _ & Herror).
  exists result, s'. split; [exact Hrun | exact Herror].
Qed.

(** *** The route [/webhook] *)

Lemma browser_calls_emit (ev : event) (s : state) :
  browser_calls (emit ev s)
  = (browser_calls s ++ (if is_browser_call ev then [ev] else []))%list.
Proof.
  unfold browser_calls, emit; simpl.
  rewrite List.filter_app; simpl.
  destruct (is_browser_call ev); reflexivity.
Qed.

Lemma posts_emit (ev : event) (s : state) :
  posts (emit ev s) = (posts s ++ (if is_post ev then [ev] else []))%list.
Proof.
  unfold posts, emit; simpl.
  rewrite List.filter_app; simpl.
  destruct (is_post ev); reflexivity.
Qed.

(** The adapter, path by path: an exception of class [Exception] is turned
    into a browser-error result after one error line; anything else goes
    through. *)
Lemma forward_via_browser_run (w : world) (payload : json) (s : state) :
  let caught e s' :=
    if isinstance e cls_Exception
    then (Returned (browser_error_result (str e)),
          emit (LogError ("Error during browser forwarding: " +:+ str e)) s')
    else (Raised e, s') in
  forward_via_browser w payload s
  = match page s with
    | None => caught (AttributeError "NoneType" "goto") s
    | Some _ =>
        let s1 := emit (PageGoto WEBHOOK_URL) s in
        match goto_outcome w WEBHOOK_URL with
        | Raised e => caught e s1
        | Returned _ =>
            let s2 := emit (PageEvaluate (json_dumps payload)) s1 in
            match evaluate_failure w with
            | Some e => caught e s2
            | None =>
                match forward_script w (json_dumps payload) with
                | Fulfilled v => (Returned v, s2)
                | Rejected m => caught (OtherException m) s2
                end
            end
        end
    end.
Proof.
  cbv zeta.
  unfold forward_via_browser, try_except, bind, page_goto, page_evaluate.
  destruct (page s) as [pg |] eqn:Hpage; [ | reflexivity ].
  destruct (goto_outcome w WEBHOOK_URL) as [[] | e]; cbn [emit page];
    [ | destruct e; reflexivity ].
  rewrite Hpage.
  destruct (evaluate_failure w) as [e |]; [ destruct e; reflexivity | ].
  destruct (forward_script w (json_dumps payload)); reflexivity.
Qed.

(** Rendering an envelope succeeds exactly when what it wraps renders. *)
Lemma renderable_webhook_envelope (url : string) (result : json) :
  renderable (webhook_envelope url result) = renderable result.
Proof. cbn. apply andb_true_r. Qed.

Lemma renderable_direct_envelope (url : string) (status_code : Z) (parsed : json) :
  renderable (direct_envelope url status_code parsed) = renderable parsed.
Proof. cbn. apply andb_true_r. Qed.

(** Of the four shapes of a result only the first can fail to render,
    through the JSON body of the upstream. *)
Lemma ForwardResult_unrenderable (result : json) :
  ForwardResult result ->
  renderable result = false ->
  exists status statusText data,
    result = fetched_result status statusText data
    /\ renderable data = false.
Proof.
  destruct 1 as [status statusText data | | | ]; try discriminate.
  intros Hdata. exists status, statusText, data. split; [ reflexivity | ].
  cbn in Hdata. rewrite andb_true_r in Hdata. exact Hdata.
Qed.


(** The handler after the adapter has returned: the last info line, then
    the envelope when it renders, and otherwise the [ValueError] of
    [JSONResponse], caught and raised again as a 500. *)
Lemma receive_webhook_after_adapter
      (w : world) (request : Request) fields (s s3 : state) rfields status :
  json_loads (body request) = Returned (JObj fields) ->
  forward_via_browser w (JObj fields)
    (emit (LogInfo ("Forwarding payload to: " +:+ WEBHOOK_URL))
       (emit (LogInfo ("Received webhook payload: "
                       +:+ json_dumps_indent 2 (JObj fields))) s))
  = (Returned (JObj rfields), s3) ->
  assoc_get "status" rfields = Some status ->
  receive_webhook w request s
  = let s4 := emit (LogInfo ("Forwarding completed with status: "
                             +:+ str_value status)) s3 in
    if renderable (JObj rfields)
    then (Returned (mkJSONResponse 200
                      (webhook_envelope WEBHOOK_URL (JObj rfields))), s4)
    else (Raised (HTTPException 500 (str ValueError_out_of_range)),
          emit (LogError ("Error processing webhook: "
                          +:+ str ValueError_out_of_range)) s4).
Proof.
  intros Hloads Hrun Hstatus. cbv zeta.
  assert (Hbody : forall o s4,
    make_JSONResponse 200 (webhook_envelope WEBHOOK_URL (JObj rfields))
      (emit (LogInfo ("Forwarding completed with status: "
                      +:+ str_value status)) s3) = (o, s4) ->
    bind (request_json request) (fun payload =>
      bind (logger_info ("Received webhook payload: "
                         +:+ json_dumps_indent 2 payload)) (fun _ =>
      bind (when (negb (isinstance_dict payload))
              (raise (HTTPException 400 "Payload harus berupa JSON object")))
           (fun _ =>
      bind (logger_info ("Forwarding payload to: " +:+ WEBHOOK_URL)) (fun _ =>
      bind (forward_via_browser w payload) (fun result =>
      bind (dict_get result "status" (JStr "unknown")) (fun status =>
      bind (logger_info ("Forwarding completed with status: "
                         +:+ str_value status)) (fun _ =>
      make_JSONResponse 200
        (JObj [("message", JStr "Webhook processed successfully");
               ("forwarded_to", JStr WEBHOOK_URL);
               ("result", result)])))))))) s = (o, s4)).
  { intros o s4 Hmake.
    erewrite bind_returned
      by (unfold request_json; rewrite Hloads; reflexivity).
    erewrite bind_returned by reflexivity.
    erewrite bind_returned by reflexivity.
    erewrite bind_returned by reflexivity.
    erewrite bind_returned by exact Hrun.
    erewrite bind_returned
      by (unfold dict_get; rewrite Hstatus; reflexivity).
    erewrite bind_returned by reflexivity.
    exact Hmake. }
  unfold receive_webhook.
  unfold make_JSONResponse in Hbody.
  rewrite renderable_webhook_envelope in Hbody.
  destruct (renderable (JObj rfields)).
  - apply try_except_returned. apply Hbody. reflexivity.
  - erewrite try_except_selected with (e := ValueError_out_of_range);
      [ | apply Hbody; reflexivity | reflexivity ].
    reflexivity.
Qed.

(** The handler wraps a result of the adapter that renders in its
    envelope. *)
Lemma receive_webhook_envelope
      (w : world) (request : Request) fields (s s3 : state) (result : json) :
  json_loads (body request) = Returned (JObj fields) ->
  forward_via_browser w (JObj fields)
    (emit (LogInfo ("Forwarding payload to: " +:+ WEBHOOK_URL))
       (emit (LogInfo ("Received webhook payload: "
                       +:+ json_dumps_indent 2 (JObj fields))) s))
  = (Returned result, s3) ->
  ForwardResult result ->
  renderable result = true ->
  exists s',
    receive_webhook w request s
    = (Returned (mkJSONResponse 200 (webhook_envelope WEBHOOK_URL result)), s').
Proof.
  intros Hloads Hrun Hshape Hrender.
  destruct (ForwardResult_is_dict result Hshape)
    as (rfields & status & -> & Hstatus).
  rewrite (receive_webhook_after_adapter w request fields s s3 rfields status
             Hloads Hrun Hstatus); cbv zeta.
  rewrite Hrender. eexists; reflexivity.
Qed.



(** What the handler does with a body that parses to something else than
    an object: its own [HTTPException] of status 400 is raised inside the
    [try], is caught by [except Exception], and is raised again with
    status 500. *)
Lemma receive_webhook_non_object (w : world) (request : Request) v s :
  json_loads (body request) = Returned v ->
  isinstance_dict v = false ->
  receive_webhook w request s
  = (Raised (HTTPException 500
               (str (HTTPException 400 "Payload harus berupa JSON object"))),
     emit (LogError
             ("Error processing webhook: "
              +:+ str (HTTPException 400 "Payload harus berupa JSON object")))
          (emit (LogInfo ("Received webhook payload: "
                          +:+ json_dumps_indent 2 v)) s)).
Proof.
  intros Hloads Hshape.
  unfold receive_webhook.
  erewrite try_except_selected
    with (e := HTTPException 400 "Payload harus berupa JSON object");
    [ | | rewrite select_next by reflexivity;
          apply select_first, HTTPException_is_Exception ];
    [ reflexivity | ].
  erewrite bind_returned
    by (unfold request_json; rewrite Hloads; reflexivity).
  erewrite bind_returned by reflexivity.
  rewrite Hshape. reflexivity.
Qed.

(** C1, as the code behaves. For every body that is valid JSON but not an
    object, [POST /webhook] does not invoke the browser adapter, and the
    reply is HTTP 500, not the HTTP 400 the handler raises first: the
    detail of the 500 is the text of that [HTTPException] of status 400. *)
Theorem webhook_non_object_payload_answers_500
        (w : world) (request : Request) (v : json) (s : state) :
  json_loads (body request) = Returned v ->
  isinstance_dict v = false ->
  exists s',
    app w POST_webhook request s
    = (Reply 500
         (error_body
            (str_HTTPException 400 "Payload harus berupa JSON object")), s')
    /\ browser_calls s' = browser_calls s.
Proof.
  intros Hloads Hshape.
  eexists; split.
  - unfold app.
    rewrite (receive_webhook_non_object w request v s Hloads Hshape).
    reflexivity.
  - rewrite !browser_calls_emit. simpl. rewrite !app_nil_r. reflexivity.
Qed.

(** C6, amended. For every body on which [request.json()] raises
    [json.JSONDecodeError], [POST /webhook] replies HTTP 400 with the detail
    "Invalid JSON payload"; one error line is logged and nothing else
    happens. *)
Theorem webhook_malformed_json_answers_400
        (w : world) (request : Request) (msg : string) (s : state) :
  json_loads (body request) = Raised (JSONDecodeError msg) ->
  app w POST_webhook request s
  = (Reply 400 (JObj [("detail", JStr "Invalid JSON payload")]),
     emit (LogError "Invalid JSON payload") s).
Proof.
  intros Hloads.
  unfold app, receive_webhook.
  erewrite try_except_selected with (e := JSONDecodeError msg);
    [ | | reflexivity ]; [ reflexivity | ].
  apply bind_raised.
  unfold request_json. rewrite Hloads. reflexivity.
Qed.

(** *** The route [/webhook/direct] *)

(** The whole behaviour of the handler once the body of the request has
    been parsed: one POST, then the envelope when the answer can be decoded
    and rendered, or the error of the POST, of the decoding of the upstream
    body or of the rendering turned into a 500. *)
Lemma receive_webhook_direct_parsed (w : world) (request : Request) v s :
  json_loads (body request) = Returned v ->
  let s1 := emit (LogInfo ("Received direct webhook payload: "
                           +:+ json_dumps_indent 2 v)) s in
  let s2 := emit (ClientPost WEBHOOK_URL v content_type_json) s1 in
  let failed e s' :=
    if isinstance e cls_Exception
    then (Raised (HTTPException 500 (str e)),
          emit (LogError ("Error processing direct webhook: " +:+ str e)) s')
    else (Raised e, s') in
  receive_webhook_direct w request s
  = match post_outcome w WEBHOOK_URL v content_type_json with
    | Raised e => failed e s2
    | Returned response =>
        let s3 := emit (LogInfo ("Direct forwarding completed with status: "
                         +:+ str_value (JInt (resp_status_code response)))) s2 in
        match upstream_body response with
        | Returned parsed =>
            if renderable parsed
            then (Returned (mkJSONResponse 200
                    (direct_envelope WEBHOOK_URL (resp_status_code response)
                                     parsed)),
                  s3)
            else failed ValueError_out_of_range s3
        | Raised e => failed e s3
        end
    end.
Proof.
  intros Hloads.
  unfold receive_webhook_direct, try_except, bind, request_json, client_post,
    response_json, upstream_body, logger_info, logger_error,
    make_JSONResponse.
  rewrite Hloads.
  change [("Content-Type", "application/json")] with content_type_json.
  destruct (post_outcome w WEBHOOK_URL v content_type_json)
    as [response | e]; cbv zeta.
  - destruct (String.eqb (resp_content response) "").
    + reflexivity.
    + destruct (json_loads (resp_content response)) as [parsed | e].
      * change (JObj [("message",
                       JStr "Webhook processed successfully via direct HTTP");
                      ("forwarded_to", JStr WEBHOOK_URL);
                      ("status_code", JInt (resp_status_code response));
                      ("response", parsed)])
          with (direct_envelope WEBHOOK_URL (resp_status_code response) parsed).
        rewrite renderable_direct_envelope.
        destruct (renderable parsed); reflexivity.
      * destruct e; reflexivity.
  - destruct e; reflexivity.
Qed.

(** With a body that cannot be parsed the handler makes no POST and raises
    a 500 whose detail is the message of the decoder. *)
Lemma receive_webhook_direct_unparsed (w : world) (request : Request) e s :
  json_loads (body request) = Raised e ->
  isinstance e cls_Exception = true ->
  receive_webhook_direct w request s
  = (Raised (HTTPException 500 (str e)),
     emit (LogError ("Error processing direct webhook: " +:+ str e)) s).
Proof.
  intros Hloads Hclass.
  unfold receive_webhook_direct.
  erewrite try_except_selected with (e := e);
    [ | | apply select_first, Hclass ]; [ reflexivity | ].
  apply bind_raised.
  unfold request_json. rewrite Hloads. reflexivity.
Qed.

Lemma posts_direct_parsed (w : world) (request : Request) v s :
  json_loads (body request) = Returned v ->
  posts (snd (receive_webhook_direct w request s))
  = (posts s ++ [ClientPost WEBHOOK_URL v content_type_json])%list.
Proof.
  intros Hloads.
  rewrite (receive_webhook_direct_parsed w request v s Hloads). cbv zeta.
  destruct (post_outcome w WEBHOOK_URL v content_type_json) as [response | e].
  - destruct (upstream_body response) as [parsed | e];
      [ destruct (renderable parsed) | destruct (isinstance e cls_Exception) ];
      simpl; rewrite ?posts_emit; simpl; rewrite ?app_nil_r; reflexivity.
  - destruct (isinstance e cls_Exception);
      simpl; rewrite ?posts_emit; simpl; rewrite ?app_nil_r; reflexivity.
Qed.

Lemma app_direct (w : world) (request : Request) (s : state) :
  app w POST_webhook_direct request s
  = (respond (fst (receive_webhook_direct w request s)),
     snd (receive_webhook_direct w request s)).
Proof.
  unfold app. destruct (receive_webhook_direct w request s). reflexivity.
Qed.


Lemma upstream_body_full (response : Response) :
  resp_content response <> "" ->
  upstream_body response = json_loads (resp_content response).
Proof.
  unfold upstream_body.
  destruct (String.eqb_spec (resp_content response) "");
    [ contradiction | reflexivity ].
Qed.





(** C3, as the code behaves. [POST /webhook/direct] validates nothing: a
    body that is not valid JSON gets HTTP 500 (not 400) with the message of
    the decoder as detail, before any POST; a body that is valid JSON
    but not an object is handed to the Direct-Relay Adapter, which posts
    it to the target like any other payload. *)
Theorem direct_route_does_not_validate
        (w : world) (request : Request) (s : state) :
  (forall msg,
     json_loads (body request) = Raised (JSONDecodeError msg) ->
     fst (app w POST_webhook_direct request s) = Reply 500 (error_body msg)
     /\ posts (snd (app w POST_webhook_direct request s)) = posts s)
  /\ (forall v,
        json_loads (body request) = Returned v ->
        isinstance_dict v = false ->
        posts (snd (app w POST_webhook_direct request s))
        = (posts s ++ [ClientPost WEBHOOK_URL v content_type_json])%list).
Proof.
  rewrite app_direct; cbn [fst snd].
  split.
  - intros msg Hloads.
    rewrite (receive_webhook_direct_unparsed w request _ s Hloads eq_refl).
    split; [reflexivity | ].
    cbn [snd]. rewrite posts_emit, app_nil_r. reflexivity.
  - intros v Hloads _. apply posts_direct_parsed, Hloads.
Qed.

(** *** The unreachable target *)

(** When the navigation raises, the adapter reports a browser error and
    the script is never evaluated. *)
Lemma forward_via_browser_navigation_raises
      (w : world) (payload : json) (s : state) (m : string) :
  goto_outcome w WEBHOOK_URL = Raised (OtherException m) ->
  exists message s',
    forward_via_browser w payload s
    = (Returned (browser_error_result message), s').
Proof.
  intros Hnav.
  unfold forward_via_browser.
  destruct (page s) as [pg |] eqn:Hpage.
  - erewrite try_except_selected with (e := OtherException m);
      [ | unfold bind, page_goto; rewrite Hpage, Hnav; reflexivity
        | reflexivity ].
    eexists; eexists; reflexivity.
  - erewrite try_except_selected with (e := AttributeError "NoneType" "goto");
      [ | unfold bind, page_goto; rewrite Hpage; reflexivity
        | reflexivity ].
    eexists; eexists; reflexivity.
Qed.

(** When the navigation returns and the [fetch] of the script is rejected,
    the adapter reports a network error. *)
Lemma forward_via_browser_fetch_rejected
      (w : world) (payload : json) (s : state) (pg : Page) (m : string) :
  page s = Some pg ->
  goto_outcome w WEBHOOK_URL = Returned tt ->
  evaluate_failure w = None ->
  (forall init, fetch w (location_href w) init = Rejected m) ->
  forward_via_browser w payload s
  = (Returned (network_error_result m),
     emit (PageEvaluate (json_dumps payload)) (emit (PageGoto WEBHOOK_URL) s)).
Proof.
  intros Hpage Hnav Hfail Hfetch.
  unfold forward_via_browser.
  apply try_except_returned.
  unfold bind, page_goto, page_evaluate, forward_script.
  rewrite Hpage, Hnav; simpl. rewrite Hpage, Hfail, Hfetch. reflexivity.
Qed.

(** The branch the script keeps for a rejected [fetch]: it is reached when
    the navigation has succeeded, and only then. *)
Lemma webhook_fetch_rejected_is_network_error
      (w : world) (request : Request) fields (s : state) (pg : Page) (m : string) :
  json_loads (body request) = Returned (JObj fields) ->
  page s = Some pg ->
  goto_outcome w WEBHOOK_URL = Returned tt ->
  evaluate_failure w = None ->
  (forall init, fetch w (location_href w) init = Rejected m) ->
  network_error_reply (fst (app w POST_webhook request s)).
Proof.
  intros Hloads Hpage Hnav Hfail Hfetch.
  set (s2 := emit (LogInfo ("Forwarding payload to: " +:+ WEBHOOK_URL))
               (emit (LogInfo ("Received webhook payload: "
                               +:+ json_dumps_indent 2 (JObj fields))) s)).
  assert (Hpage2 : page s2 = Some pg) by exact Hpage.
  destruct (receive_webhook_envelope w request fields s _
              (network_error_result m) Hloads
              (forward_via_browser_fetch_rejected w (JObj fields) s2 pg m
                 Hpage2 Hnav Hfail Hfetch)
              (fetch_rejected m) eq_refl) as (s' & Hrun).
  unfold app. rewrite Hrun. cbn [fst respond].
  eexists; eexists; repeat split; reflexivity.
Qed.

(** C2, amended. For every JSON-object payload, when the target URL is
    unreachable the navigation of the page raises before the script runs:
    [POST /webhook] replies HTTP 200 with a result of status 500 and status
    text "Browser Error", while [POST /webhook/direct] replies HTTP 500;
    the two routes fail asymmetrically. *)
Theorem unreachable_target_asymmetry
        (w : world) (request : Request) fields (s : state) :
  json_loads (body request) = Returned (JObj fields) ->
  target_unreachable w WEBHOOK_URL ->
  (exists c result,
      fst (app w POST_webhook request s) = Reply 200 c
      /\ field "result" c = Some result
      /\ field "status" result = Some (JInt 500)
      /\ field "statusText" result = Some (JStr "Browser Error"))
  /\ (exists detail,
        fst (app w POST_webhook_direct request s)
        = Reply 500 (JObj [("detail", JStr detail)])).
Proof.
  intros Hloads ([m Hnav] & _ & Hpost).
  split.
  - destruct (forward_via_browser_navigation_raises w (JObj fields)
                (emit (LogInfo ("Forwarding payload to: " +:+ WEBHOOK_URL))
                   (emit (LogInfo ("Received webhook payload: "
                                   +:+ json_dumps_indent 2 (JObj fields))) s))
                m Hnav) as (message & s3 & Hrun).
    destruct (receive_webhook_envelope w request fields s s3 _ Hloads Hrun
                (driver_failed message) eq_refl) as (s' & Hhandler).
    unfold app. rewrite Hhandler. cbn [fst respond].
    eexists; eexists; repeat split; reflexivity.
  - destruct (Hpost (JObj fields) content_type_json) as [m' Hraise].
    rewrite app_direct; cbn [fst].
    rewrite (receive_webhook_direct_parsed w request _ s Hloads); cbv zeta.
    rewrite Hraise. exists m'. reflexivity.
Qed.

(** *** The health routes *)

(** C8. [GET /health] always replies HTTP 200 with a [config] object whose
    [port] is the configured [PORT], whose [webhook_url] is the configured
    [WEBHOOK_URL] and whose [log_level] is the configured [LOG_LEVEL];
    [GET /] always replies HTTP 200 with the service name, the port and
    the target URL; neither changes the state of the program nor calls the
    outside. *)
Theorem health_routes_report_the_configuration
        (w : world) (request : Request) (s : state) :
  (exists c config,
      app w GET_health request s = (Reply 200 c, s)
      /\ field "config" c = Some config
      /\ field "port" config = Some (JInt PORT)
      /\ field "webhook_url" config = Some (JStr WEBHOOK_URL)
      /\ field "log_level" config = Some (JStr (os_getenv "LOG_LEVEL" "INFO")))
  /\ (exists c,
        app w GET_root request s = (Reply 200 c, s)
        /\ field "service" c = Some (JStr "webhook-bridge")
        /\ field "port" c = Some (JInt PORT)
        /\ field "webhook_url" c = Some (JStr WEBHOOK_URL)).
Proof.
  split.
  - eexists; eexists; repeat split; reflexivity.
  - eexists; repeat split; reflexivity.
Qed.

(** *** The lifespan *)

(** The cleanup closes the browser once when one was created and not at
    all otherwise, whatever happened before and whatever the close step
    itself does. *)
Lemma lifespan_closes (lc : lifecycle) :
  closes (snd (lifespan lc initial_frame))
  = if browser_created lc then 1%nat else 0%nat.
Proof.
  destruct lc as [start launch new_page serve close stop].
  unfold browser_created, driver_started; cbn [start_outcome launch_outcome returns].
  destruct start as [p | []]; [ destruct launch as [b | []] | .. ];
    [ destruct new_page as [pg | []];
      [ destruct serve as [[] | []] | .. ] | .. ];
    destruct close as [[] | ec]; destruct stop as [[] | es]; reflexivity.
Qed.

(** The cleanup stops the driver once when it was started and the close
    step, if any, returned; it does not stop it otherwise. *)
Lemma lifespan_stops (lc : lifecycle) :
  stops (snd (lifespan lc initial_frame))
  = if driver_started lc
       && (negb (browser_created lc) || returns (close_outcome lc))
    then 1%nat else 0%nat.
Proof.
  destruct lc as [start launch new_page serve close stop].
  unfold browser_created, driver_started;
    cbn [start_outcome launch_outcome close_outcome returns].
  destruct start as [p | []]; [ destruct launch as [b | []] | .. ];
    [ destruct new_page as [pg | []];
      [ destruct serve as [[] | []] | .. ] | .. ];
    destruct close as [[] | ec]; destruct stop as [[] | es]; reflexivity.
Qed.

(** The server is only served ([yield]) once the driver, the browser and
    the page are all there. *)
Lemma lifespan_serves_when_initialised (lc : lifecycle) :
  In Yield (calls (globals (snd (lifespan lc initial_frame)))) ->
  returns (start_outcome lc) = true
  /\ returns (launch_outcome lc) = true
  /\ returns (new_page_outcome lc) = true.
Proof.
  destruct lc as [start launch new_page serve close stop].
  cbn [start_outcome launch_outcome new_page_outcome returns].
  destruct start as [p | []]; [ destruct launch as [b | []] | .. ];
    [ destruct new_page as [pg | []];
      [ destruct serve as [[] | []] | .. ] | .. ];
    destruct close as [[] | ec]; destruct stop as [[] | es];
    cbn; intuition discriminate.
Qed.

(** C9, as the code behaves. The cleanup of the lifespan is a plain
    sequence, so a close step that raises ends it: whenever a browser was
    created and [browser.close()] raises, whether startup had succeeded or
    had failed at the page, the browser has been closed once but the
    automation driver, which was started, is never stopped, and the
    lifespan raises the exception of the close step. *)
Theorem close_failure_skips_the_stop (lc : lifecycle) (e : exn) :
  browser_created lc = true ->
  close_outcome lc = Raised e ->
  driver_started lc = true
  /\ closes (snd (lifespan lc initial_frame)) = 1%nat
  /\ stops (snd (lifespan lc initial_frame)) = 0%nat
  /\ fst (lifespan lc initial_frame) = Raised e.
Proof.
  intros Hcreated Hclose.
  assert (Hstarted : driver_started lc = true).
  { unfold browser_created in Hcreated. unfold driver_started.
    destruct (returns (start_outcome lc)); [ reflexivity | discriminate ]. }
  split; [ exact Hstarted | ].
  split; [ rewrite lifespan_closes, Hcreated; reflexivity | ].
  split; [ rewrite lifespan_stops, Hstarted, Hcreated, Hclose; reflexivity | ].
  destruct lc as [start launch new_page serve close stop].
  cbn [close_outcome] in Hclose. subst close.
  unfold browser_created in Hcreated;
    cbn [start_outcome launch_outcome] in Hcreated.
  destruct start as [p | es]; [ | discriminate Hcreated ].
  destruct launch as [b | el]; [ | discriminate Hcreated ].
  destruct new_page as [pg | en];
    [ destruct serve as [[] | ev]; [ | destruct ev ] | destruct en ];
    reflexivity.
Qed.

End Properties.

(** * Further properties *)

Section Further.

Context {platform : Platform}.

(** *** Relations kept along a computation *)

Lemma unchanged_refl (p : event -> bool) (s : state) : unchanged p s s.
Proof. repeat split. Qed.

Lemma unchanged_trans (p : event -> bool) (s1 s2 s3 : state) :
  unchanged p s1 s2 -> unchanged p s2 s3 -> unchanged p s1 s3.
Proof.
  intros (Hb1 & Hp1 & Hc1) (Hb2 & Hp2 & Hc2).
  repeat split; congruence.
Qed.

Lemma unchanged_emit (p : event -> bool) (ev : event) (s : state) :
  p ev = false -> unchanged p s (emit ev s).
Proof.
  intros Hev. repeat split. simpl.
  rewrite List.filter_app. simpl. rewrite Hev. apply app_nil_r.
Qed.

Lemma preserves_ret {A} p (a : A) : preserves (unchanged p) (ret a).
Proof. intros s. apply unchanged_refl. Qed.

Lemma preserves_raise {A} p (e : exn) :
  preserves (unchanged p) (raise (A := A) e).
Proof. intros s. apply unchanged_refl. Qed.

Lemma preserves_bind {A B} p (m : M state A) (k : A -> M state B) :
  preserves (unchanged p) m ->
  (forall a, preserves (unchanged p) (k a)) ->
  preserves (unchanged p) (bind m k).
Proof.
  intros Hm Hk s. unfold bind.
  specialize (Hm s). destruct (m s) as [[a | e] s1]; simpl in *.
  - eapply unchanged_trans; [ exact Hm | apply Hk ].
  - exact Hm.
Qed.

Lemma select_handler_In {H} (e : exn) (clauses : list (exc_class * H)) h :
  select_handler e clauses = Some h -> exists c, In (c, h) clauses.
Proof.
  induction clauses as [| [c h'] rest IH]; simpl; [ discriminate | ].
  destruct (isinstance e c).
  - intros [= <-]. exists c. left; reflexivity.
  - intros Hrest. destruct (IH Hrest) as [c' Hin]. exists c'. right; exact Hin.
Qed.

Lemma preserves_try_except {A} p (body : M state A) clauses :
  preserves (unchanged p) body ->
  (forall c h, In (c, h) clauses -> forall e, preserves (unchanged p) (h e)) ->
  preserves (unchanged p) (try_except body clauses).
Proof.
  intros Hbody Hclauses s. unfold try_except.
  specialize (Hbody s). destruct (body s) as [[a | e] s1]; simpl in *.
  - exact Hbody.
  - destruct (select_handler e clauses) as [h |] eqn:Hsel; [ | exact Hbody ].
    destruct (select_handler_In _ _ _ Hsel) as [c Hin].
    eapply unchanged_trans; [ exact Hbody | apply (Hclauses c h Hin) ].
Qed.

Lemma preserves_when p (c : bool) (body : M state unit) :
  preserves (unchanged p) body -> preserves (unchanged p) (when c body).
Proof. intros Hbody. destruct c; [ exact Hbody | apply preserves_ret ]. Qed.

(** The calls of the program, one by one. *)

Lemma preserves_logger_info p msg :
  p (LogInfo msg) = false -> preserves (unchanged p) (logger_info msg).
Proof. intros Hev s. apply unchanged_emit, Hev. Qed.

Lemma preserves_logger_error p msg :
  p (LogError msg) = false -> preserves (unchanged p) (logger_error msg).
Proof. intros Hev s. apply unchanged_emit, Hev. Qed.

Lemma preserves_request_json p request :
  preserves (unchanged p) (request_json request).
Proof. intros s. apply unchanged_refl. Qed.

Lemma preserves_response_json p response :
  preserves (unchanged p) (response_json response).
Proof. intros s. apply unchanged_refl. Qed.

Lemma preserves_dict_get p d key default :
  preserves (unchanged p) (dict_get d key default).
Proof.
  unfold dict_get.
  destruct d; try apply preserves_raise.
  destruct (assoc_get key fields); apply preserves_ret.
Qed.

Lemma preserves_page_goto p w url :
  p (PageGoto url) = false -> preserves (unchanged p) (page_goto w url).
Proof.
  intros Hev s. unfold page_goto.
  destruct (page s); [ apply unchanged_emit, Hev | apply unchanged_refl ].
Qed.

Lemma preserves_page_evaluate p w script arg :
  p (PageEvaluate arg) = false ->
  preserves (unchanged p) (page_evaluate w script arg).
Proof.
  intros Hev s. unfold page_evaluate.
  destruct (page s); [ | apply unchanged_refl ].
  destruct (evaluate_failure w); [ apply unchanged_emit, Hev | ].
  destruct (script arg); apply unchanged_emit, Hev.
Qed.

Lemma preserves_client_post p w url payload headers :
  p (ClientPost url payload headers) = false ->
  preserves (unchanged p) (client_post w url payload headers).
Proof. intros Hev s. apply unchanged_emit, Hev. Qed.

Lemma preserves_make_JSONResponse p status_code content :
  preserves (unchanged p) (make_JSONResponse status_code content).
Proof.
  unfold make_JSONResponse.
  destruct (renderable content); [ apply preserves_ret | apply preserves_raise ].
Qed.

Lemma preserves_try_except_1 {A} p (body : M state A) c1 h1 :
  preserves (unchanged p) body ->
  (forall e, preserves (unchanged p) (h1 e)) ->
  preserves (unchanged p) (try_except body [(c1, h1)]).
Proof.
  intros Hbody H1. apply preserves_try_except; [ exact Hbody | ].
  intros c h [[= <- <-] | []]. exact H1.
Qed.

Lemma preserves_try_except_2 {A} p (body : M state A) c1 h1 c2 h2 :
  preserves (unchanged p) body ->
  (forall e, preserves (unchanged p) (h1 e)) ->
  (forall e, preserves (unchanged p) (h2 e)) ->
  preserves (unchanged p) (try_except body [(c1, h1); (c2, h2)]).
Proof.
  intros Hbody H1 H2. apply preserves_try_except; [ exact Hbody | ].
  intros c h [[= <- <-] | [[= <- <-] | []]]; assumption.
Qed.

Ltac keep :=
  repeat first
    [ apply preserves_try_except_2; [ | intros ? | intros ? ]
    | apply preserves_try_except_1; [ | intros ? ]
    | apply preserves_bind; [ | intros ? ]
    | apply preserves_when
    | apply preserves_ret
    | apply preserves_raise
    | apply preserves_request_json
    | apply preserves_response_json
    | apply preserves_dict_get
    | apply preserves_make_JSONResponse
    | apply preserves_logger_info; reflexivity
    | apply preserves_logger_error; reflexivity
    | apply preserves_page_goto; reflexivity
    | apply preserves_page_evaluate; reflexivity
    | apply preserves_client_post; reflexivity ].

(** *** What the routes leave alone *)

Lemma forward_via_browser_keeps_globals (w : world) (payload : json) :
  preserves (unchanged no_event) (forward_via_browser w payload).
Proof. unfold forward_via_browser. keep. Qed.

Lemma forward_via_browser_posts_nothing (w : world) (payload : json) :
  preserves (unchanged is_post) (forward_via_browser w payload).
Proof. unfold forward_via_browser. keep. Qed.

Lemma receive_webhook_keeps_globals (w : world) (request : Request) :
  preserves (unchanged no_event) (receive_webhook w request).
Proof.
  unfold receive_webhook. keep.
Qed.

Lemma receive_webhook_posts_nothing (w : world) (request : Request) :
  preserves (unchanged is_post) (receive_webhook w request).
Proof.
  unfold receive_webhook. keep.
Qed.

Lemma receive_webhook_direct_keeps_globals (w : world) (request : Request) :
  preserves (unchanged no_event) (receive_webhook_direct w request).
Proof.
  unfold receive_webhook_direct. keep.
  destruct (String.eqb _ _); keep.
Qed.

Lemma receive_webhook_direct_leaves_the_browser (w : world) (request : Request) :
  preserves (unchanged is_browser_call) (receive_webhook_direct w request).
Proof.
  unfold receive_webhook_direct. keep.
  destruct (String.eqb _ _); keep.
Qed.

Lemma app_webhook (w : world) (request : Request) (s : state) :
  app w POST_webhook request s
  = (respond (fst (receive_webhook w request s)),
     snd (receive_webhook w request s)).
Proof. unfold app. destruct (receive_webhook w request s). reflexivity. Qed.

(** X8. No route rebinds or clears the globals [browser] and [page]: a request
    leaves the browser handle of the server as it found it, whatever the
    body, whatever the outside does, and whether the handler returns or
    raises. *)
Theorem routes_keep_the_globals
        (w : world) (r : route) (request : Request) (s : state) :
  browser (snd (app w r request s)) = browser s
  /\ page (snd (app w r request s)) = page s.
Proof.
  destruct r.
  - split; reflexivity.
  - split; reflexivity.
  - rewrite app_webhook; cbn [snd].
    destruct (receive_webhook_keeps_globals w request s) as (Hb & Hp & _).
    split; assumption.
  - rewrite app_direct; cbn [snd].
    destruct (receive_webhook_direct_keeps_globals w request s)
      as (Hb & Hp & _).
    split; assumption.
Qed.

(** X9. [POST /webhook] never uses the HTTP client: no outbound POST is made by
    the server process on that route, on any path. *)
Theorem webhook_route_posts_nothing
        (w : world) (request : Request) (s : state) :
  posts (snd (app w POST_webhook request s)) = posts s.
Proof.
  rewrite app_webhook; cbn [snd].
  destruct (receive_webhook_posts_nothing w request s) as (_ & _ & Hposts).
  exact Hposts.
Qed.

(** The outcome of the direct handler does not depend on the state. *)
Lemma receive_webhook_direct_stateless
      (w : world) (request : Request) (s s' : state) :
  fst (receive_webhook_direct w request s)
  = fst (receive_webhook_direct w request s').
Proof.
  destruct (json_loads (body request)) as [v | e] eqn:Hloads.
  - rewrite !(receive_webhook_direct_parsed w request v _ Hloads); cbv zeta.
    destruct (post_outcome w WEBHOOK_URL v content_type_json)
      as [response | e].
    + destruct (upstream_body response) as [parsed | e];
        [ destruct (renderable parsed); reflexivity
        | destruct e; reflexivity ].
    + destruct e; reflexivity.
  - unfold receive_webhook_direct, try_except, bind, request_json.
    rewrite Hloads. destruct e; reflexivity.
Qed.

(** X10. [POST /webhook/direct] does not depend on the browser: it makes no call
    to the driver, and its reply is the same whether or not the lifespan
    has set the globals (in any two states of the program). *)
Theorem direct_route_ignores_the_browser
        (w : world) (request : Request) (s s' : state) :
  browser_calls (snd (app w POST_webhook_direct request s)) = browser_calls s
  /\ fst (app w POST_webhook_direct request s)
     = fst (app w POST_webhook_direct request s').
Proof.
  rewrite !app_direct; cbn [fst snd].
  split.
  - destruct (receive_webhook_direct_leaves_the_browser w request s)
      as (_ & _ & Hcalls).
    exact Hcalls.
  - rewrite (receive_webhook_direct_stateless w request s s'). reflexivity.
Qed.

(** *** The script and the adapter, path by path *)

(** X1. The script always settles with a result: its promise is never
    rejected, whatever [fetch] and [response.json()] do. The result always
    has [status] and [statusText]; it has [data] and no [error] when the
    [fetch] was fulfilled, and the message of the rejection under [error]
    and no [data] when the [fetch] was rejected. *)
Theorem forward_script_settles (w : world) (data : string) :
  exists v,
    forward_script w data = Fulfilled v
    /\ has_field "status" v = true
    /\ has_field "statusText" v = true
    /\ match fetch w (location_href w) (post_init data) with
       | Fulfilled _ => has_field "data" v = true /\ has_field "error" v = false
       | Rejected m => field "error" v = Some (JStr m) /\ has_field "data" v = false
       end.
Proof.
  unfold forward_script, post_init.
  destruct (fetch w (location_href w) _) as [response | m]; simpl.
  - destruct (js_json response) as [j | m]; simpl;
      eexists; repeat split; reflexivity.
  - eexists; repeat split; reflexivity.
Qed.

(** One forward drives the browser in a fixed way: nothing when the global
    [page] is missing; otherwise one navigation, to [WEBHOOK_URL], followed
    by one evaluation of the script on the serialised payload when, and
    only when, the navigation returned. The script is never evaluated on a
    page whose navigation failed, and the page is never navigated twice. *)
Lemma forward_via_browser_calls
      (w : world) (payload : json) (s : state) :
  browser_calls (snd (forward_via_browser w payload s))
  = (browser_calls s
     ++ match page s with
        | None => []
        | Some _ =>
            PageGoto WEBHOOK_URL
            :: (if returns (goto_outcome w WEBHOOK_URL)
                then [PageEvaluate (json_dumps payload)]
                else [])
        end)%list.
Proof.
  rewrite forward_via_browser_run; cbv zeta.
  destruct (page s) as [pg |].
  - destruct (goto_outcome w WEBHOOK_URL) as [[] | e]; cbn [returns].
    + destruct (evaluate_failure w) as [e |].
      * destruct (isinstance e cls_Exception); cbn [snd];
          rewrite ?browser_calls_emit; cbn [is_browser_call];
          rewrite ?app_nil_r, <- ?app_assoc; reflexivity.
      * destruct (forward_script_fulfilled w (json_dumps payload))
          as (v & -> & _).
        cbn [snd]. rewrite !browser_calls_emit; cbn [is_browser_call].
        rewrite <- app_assoc. reflexivity.
    + destruct (isinstance e cls_Exception); cbn [snd];
        rewrite ?browser_calls_emit; cbn [is_browser_call];
        rewrite ?app_nil_r; reflexivity.
  - cbn [isinstance AttributeError snd].
    rewrite browser_calls_emit; cbn [is_browser_call].
    rewrite !app_nil_r. reflexivity.
Qed.

(** *** The route [/webhook], path by path *)

Lemma try_except_passes {St A} (body : M St A) clauses s e s1 :
  body s = (Raised e, s1) ->
  select_handler e clauses = None ->
  try_except body clauses s = (Raised e, s1).
Proof. unfold try_except. intros -> ->. reflexivity. Qed.


(** X4. A request that arrives while the global [page] is [None] (the lifespan
    has not set it) is not refused: [POST /webhook] replies HTTP 200 with a
    browser-error result whose [error] is the text of the [AttributeError],
    and the driver is not called. *)
Theorem webhook_without_a_page
        (w : world) (request : Request) fields (s : state) :
  json_loads (body request) = Returned (JObj fields) ->
  page s = None ->
  fst (app w POST_webhook request s)
  = Reply 200
      (webhook_envelope WEBHOOK_URL
         (JObj [("status", JInt 500);
                ("statusText", JStr "Browser Error");
                ("error", JStr "'NoneType' object has no attribute 'goto'")]))
  /\ browser_calls (snd (app w POST_webhook request s)) = browser_calls s.
Proof.
  intros Hloads Hpage.
  rewrite app_webhook; cbn [fst snd].
  assert (Hrun :
    forward_via_browser w (JObj fields)
      (emit (LogInfo ("Forwarding payload to: " +:+ WEBHOOK_URL))
         (emit (LogInfo ("Received webhook payload: "
                         +:+ json_dumps_indent 2 (JObj fields))) s))
    = (Returned (browser_error_result (str (AttributeError "NoneType" "goto"))),
       emit (LogError ("Error during browser forwarding: "
                       +:+ str (AttributeError "NoneType" "goto")))
         (emit (LogInfo ("Forwarding payload to: " +:+ WEBHOOK_URL))
            (emit (LogInfo ("Received webhook payload: "
                            +:+ json_dumps_indent 2 (JObj fields))) s)))).
  { rewrite forward_via_browser_run; cbv zeta. cbn [emit page].
    rewrite Hpage. reflexivity. }
  rewrite (receive_webhook_after_adapter w request fields s _ _ (JInt 500)
             Hloads Hrun eq_refl).
  cbv zeta. cbn [renderable forallb isfinite andb fst snd respond].
  split.
  - reflexivity.
  - rewrite !browser_calls_emit; cbn [is_browser_call]. rewrite !app_nil_r.
    reflexivity.
Qed.

(** When the adapter lets an exception through, so does the handler. *)
Lemma receive_webhook_passes
      (w : world) (request : Request) fields (s s3 : state) (m : string) :
  json_loads (body request) = Returned (JObj fields) ->
  forward_via_browser w (JObj fields)
    (emit (LogInfo ("Forwarding payload to: " +:+ WEBHOOK_URL))
       (emit (LogInfo ("Received webhook payload: "
                       +:+ json_dumps_indent 2 (JObj fields))) s))
  = (Raised (NonException m), s3) ->
  receive_webhook w request s = (Raised (NonException m), s3).
Proof.
  intros Hloads Hrun.
  unfold receive_webhook.
  apply try_except_passes; [ | reflexivity ].
  erewrite bind_returned
    by (unfold request_json; rewrite Hloads; reflexivity).
  erewrite bind_returned by reflexivity.
  erewrite bind_returned by reflexivity.
  erewrite bind_returned by reflexivity.
  apply bind_raised, Hrun.
Qed.

(** The adapter returns a result in one of its four shapes, or lets
    through an exception that is not an [Exception]. *)
Lemma forward_via_browser_outcome (w : world) (payload : json) (s : state) :
  (exists result s',
      forward_via_browser w payload s = (Returned result, s')
      /\ ForwardResult result)
  \/ (exists m s', forward_via_browser w payload s = (Raised (NonException m), s')).
Proof.
  rewrite forward_via_browser_run; cbv zeta.
  assert (Hcaught : forall e s',
    (exists result s'',
        (if isinstance e cls_Exception
         then (Returned (browser_error_result (str e)),
               emit (LogError ("Error during browser forwarding: " +:+ str e)) s')
         else (Raised e, s')) = (Returned result, s'')
        /\ ForwardResult result)
    \/ (exists m s'',
           (if isinstance e cls_Exception
            then (Returned (browser_error_result (str e)),
                  emit (LogError ("Error during browser forwarding: " +:+ str e)) s')
            else (Raised e, s')) = (Raised (NonException m), s''))).
  { intros e s'. destruct e; cbn [isinstance];
      try (left; eexists; eexists; split;
           [ reflexivity | apply driver_failed ]).
    right. eexists; eexists; reflexivity. }
  destruct (page s) as [pg |]; [ | apply Hcaught ].
  destruct (goto_outcome w WEBHOOK_URL) as [[] | e]; [ | apply Hcaught ].
  destruct (evaluate_failure w) as [e |]; [ apply Hcaught | ].
  destruct (forward_script_fulfilled w (json_dumps payload))
    as (v & -> & Hv).
  left. eexists; eexists; split; [ reflexivity | exact Hv ].
Qed.

Lemma receive_webhook_ends (w : world) (request : Request) (s : state) :
  webhook_end request s (receive_webhook w request s).
Proof.
  destruct (json_loads (body request)) as [v | e] eqn:Hloads.
  - assert (Hnot : forall msg,
               json_loads (body request) <> Raised (JSONDecodeError msg))
      by (intros msg; rewrite Hloads; discriminate).
    destruct (isinstance_dict v) eqn:Hdict.
    + destruct v; try discriminate Hdict.
      destruct (forward_via_browser_outcome w (JObj fields)
                  (emit (LogInfo ("Forwarding payload to: " +:+ WEBHOOK_URL))
                     (emit (LogInfo ("Received webhook payload: "
                              +:+ json_dumps_indent 2 (JObj fields))) s)))
        as [(result & s3 & Hrun & Hshape) | (m & s3 & Hrun)].
      * destruct (ForwardResult_is_dict result Hshape)
          as (rfields & status & -> & Hstatus).
        rewrite (receive_webhook_after_adapter w request fields s s3 rfields
                   status Hloads Hrun Hstatus).
        cbv zeta. destruct (renderable (JObj rfields)).
        -- apply end_200 with (fields := fields); assumption.
        -- apply end_500, Hnot.
      * rewrite (receive_webhook_passes w request fields s s3 m Hloads Hrun).
        apply end_raised, Hnot.
    + rewrite (receive_webhook_non_object w request v s Hloads Hdict).
      apply end_500, Hnot.
  - unfold receive_webhook, try_except, bind, request_json. rewrite Hloads.
    destruct e; cbn.
    + apply end_400 with (msg := msg), Hloads.
    + apply end_500. intros msg. rewrite Hloads. discriminate.
    + apply end_500. intros msg'. rewrite Hloads. discriminate.
    + apply end_raised. intros msg'. rewrite Hloads. discriminate.
Qed.

Lemma receive_webhook_direct_ends (w : world) (request : Request) (s : state) :
  direct_end (receive_webhook_direct w request s).
Proof.
  destruct (json_loads (body request)) as [v | e] eqn:Hloads.
  - rewrite (receive_webhook_direct_parsed w request v s Hloads); cbv zeta.
    destruct (post_outcome w WEBHOOK_URL v content_type_json)
      as [response | e].
    + destruct (upstream_body response) as [parsed | e].
      * destruct (renderable parsed);
          [ apply direct_end_200 | apply direct_end_500 ].
      * destruct e; cbn [isinstance];
          first [ apply direct_end_500 | apply direct_end_raised ].
    + destruct e; cbn [isinstance];
        first [ apply direct_end_500 | apply direct_end_raised ].
  - unfold receive_webhook_direct, try_except, bind, request_json.
    rewrite Hloads.
    destruct e; cbn; first [ apply direct_end_500 | apply direct_end_raised ].
Qed.

(** X3. What [POST /webhook] makes the browser do, for every body and every
    behaviour of the outside: nothing unless the body is a JSON object and
    the global [page] is there; then one navigation, to [WEBHOOK_URL],
    followed, when and only when the navigation returned, by one evaluation
    of the script on the serialisation of the object that was received.
    The script never runs on a page whose navigation failed, and no
    request navigates twice. *)
Theorem webhook_drives_the_browser_once
        (w : world) (request : Request) (s : state) :
  browser_calls (snd (app w POST_webhook request s))
  = (browser_calls s
     ++ match json_loads (body request), page s with
        | Returned (JObj fields), Some _ =>
            PageGoto WEBHOOK_URL
            :: (if returns (goto_outcome w WEBHOOK_URL)
                then [PageEvaluate (json_dumps (JObj fields))]
                else [])
        | _, _ => []
        end)%list.
Proof.
  rewrite app_webhook; cbn [snd].
  destruct (json_loads (body request)) as [v | e] eqn:Hloads.
  - destruct (isinstance_dict v) eqn:Hdict.
    + destruct v; try discriminate Hdict.
      set (s2 := emit (LogInfo ("Forwarding payload to: " +:+ WEBHOOK_URL))
                   (emit (LogInfo ("Received webhook payload: "
                            +:+ json_dumps_indent 2 (JObj fields))) s)).
      assert (Hcalls : browser_calls (snd (forward_via_browser w (JObj fields) s2))
                = (browser_calls s
                   ++ match page s with
                      | None => []
                      | Some _ =>
                          PageGoto WEBHOOK_URL
                          :: (if returns (goto_outcome w WEBHOOK_URL)
                              then [PageEvaluate (json_dumps (JObj fields))]
                              else [])
                      end)%list).
      { rewrite forward_via_browser_calls. subst s2.
        rewrite !browser_calls_emit; cbn [is_browser_call emit page].
        rewrite !app_nil_r. reflexivity. }
      destruct (forward_via_browser_outcome w (JObj fields) s2)
        as [(result & s3 & Hrun & Hshape) | (m & s3 & Hrun)];
        rewrite Hrun in Hcalls; cbn [snd] in Hcalls.
      * destruct (ForwardResult_is_dict result Hshape)
          as (rfields & status & -> & Hstatus).
        rewrite (receive_webhook_after_adapter w request fields s s3 rfields
                   status Hloads Hrun Hstatus).
        cbv zeta. destruct (renderable (JObj rfields)); cbn [snd];
          rewrite !browser_calls_emit; cbn [is_browser_call];
          rewrite !app_nil_r, Hcalls; destruct (page s); reflexivity.
      * rewrite (receive_webhook_passes w request fields s s3 m Hloads Hrun).
        cbn [snd]. rewrite Hcalls. destruct (page s); reflexivity.
    + rewrite (receive_webhook_non_object w request v s Hloads Hdict).
      cbn [snd]. rewrite !browser_calls_emit; cbn [is_browser_call].
      destruct v; try discriminate Hdict; rewrite !app_nil_r; reflexivity.
  - unfold receive_webhook, try_except, bind, request_json. rewrite Hloads.
    destruct e; cbn [select_handler isinstance snd logger_error raise bind];
      rewrite ?browser_calls_emit; cbn [is_browser_call];
      rewrite ?app_nil_r; reflexivity.
Qed.


(** X6. The status codes of the routes: [POST /webhook] replies 200, 400 or
    500 and nothing else, [POST /webhook/direct] replies 200 or 500 and
    nothing else, and no route lets an exception of class [Exception]
    escape to the framework: what the libraries raise is always turned
    into a reply. *)
Theorem routes_status_codes (w : world) (request : Request) (s : state) :
  (forall c b,
     fst (app w POST_webhook request s) = Reply c b ->
     c = 200 \/ c = 400 \/ c = 500)
  /\ (forall c b,
        fst (app w POST_webhook_direct request s) = Reply c b ->
        c = 200 \/ c = 500)
  /\ (forall r e,
        fst (app w r request s) = Unhandled e ->
        isinstance e cls_Exception = false).
Proof.
  assert (Hwebhook : forall e,
            fst (app w POST_webhook request s) = Unhandled e ->
            isinstance e cls_Exception = false).
  { intros e. rewrite app_webhook; cbn [fst].
    destruct (receive_webhook_ends w request s); cbn [fst respond];
      intros [=]; subst; reflexivity. }
  assert (Hdirect : forall e,
            fst (app w POST_webhook_direct request s) = Unhandled e ->
            isinstance e cls_Exception = false).
  { intros e. rewrite app_direct; cbn [fst].
    destruct (receive_webhook_direct_ends w request s); cbn [fst respond];
      intros [=]; subst; reflexivity. }
  split; [ | split ].
  - intros c b. rewrite app_webhook; cbn [fst].
    destruct (receive_webhook_ends w request s); cbn [fst respond];
      intros [=]; subst; auto.
  - intros c b. rewrite app_direct; cbn [fst].
    destruct (receive_webhook_direct_ends w request s); cbn [fst respond];
      intros [=]; subst; auto.
  - intros [] e; [ discriminate | discriminate | apply Hwebhook | apply Hdirect ].
Qed.

(** X7. Every reply that is not a 200 is preceded by an error line: when a
    route replies with another status, the last thing the handler did was
    to log the error. *)
Theorem errors_are_logged_before_the_reply
        (w : world) (r : route) (request : Request) (s : state) c b :
  fst (app w r request s) = Reply c b ->
  c <> 200 ->
  exists msg, last_call (snd (app w r request s)) = Some (LogError msg).
Proof.
  unfold last_call.
  destruct r.
  - intros [= <- _] Hc. destruct Hc; reflexivity.
  - intros [= <- _] Hc. destruct Hc; reflexivity.
  - rewrite app_webhook; cbn [fst snd].
    destruct (receive_webhook_ends w request s); cbn [fst snd respond];
      intros [=] Hc; subst;
      try (eexists; apply last_snoc).
    destruct Hc; reflexivity.
  - rewrite app_direct; cbn [fst snd].
    destruct (receive_webhook_direct_ends w request s); cbn [fst snd respond];
      intros [=] Hc; subst;
      try (eexists; apply last_snoc).
    destruct Hc; reflexivity.
Qed.

(** X11. A delivered webhook can still be answered with a 500: when the target
    accepts the POST and answers, whatever its status, with a body that is
    not empty and not JSON, [POST /webhook/direct] replies HTTP 500 with
    the message of the decoder, after the POST has been made. *)
Theorem direct_route_fails_on_a_non_json_answer
        (w : world) (request : Request) (payload : json)
        (response : Response) (e : exn) (s : state) :
  json_loads (body request) = Returned payload ->
  post_outcome w WEBHOOK_URL payload content_type_json = Returned response ->
  resp_content response <> "" ->
  json_loads (resp_content response) = Raised e ->
  isinstance e cls_Exception = true ->
  fst (app w POST_webhook_direct request s)
  = Reply 500 (JObj [("detail", JStr (str e))])
  /\ posts (snd (app w POST_webhook_direct request s))
     = (posts s ++ [ClientPost WEBHOOK_URL payload content_type_json])%list.
Proof.
  intros Hloads Hpost Hfull Hbody Hclass.
  rewrite app_direct; cbn [fst snd].
  split; [ | apply posts_direct_parsed, Hloads ].
  rewrite (receive_webhook_direct_parsed w request payload s Hloads); cbv zeta.
  rewrite Hpost. unfold upstream_body.
  destruct (String.eqb_spec (resp_content response) "") as [Hempty | _];
    [ contradiction | ].
  rewrite Hbody, Hclass. reflexivity.
Qed.

(** *** The lifespan, path by path *)

Ltac lifespan_cases lc :=
  destruct lc as [start launch new_page serve close stop];
  destruct start as [p | es];
  [ destruct launch as [b | el];
    [ destruct new_page as [pg | en];
      [ destruct serve as [[] | ev] | ] | ] | ];
  destruct close as [[] | ec]; destruct stop as [[] | et].

(** X12. A failed startup fails the lifespan: when one of the three
    initialisation steps raises and the cleanup steps that run return, the
    lifespan raises that same exception and the [yield] is never reached,
    so the server never serves. *)
Theorem startup_failure_fails_the_lifespan (lc : lifecycle) (e : exn) :
  startup_error lc = Some e ->
  cleanup_returns lc = true ->
  fst (lifespan lc initial_frame) = Raised e
  /\ ~ In Yield (calls (globals (snd (lifespan lc initial_frame)))).
Proof.
  lifespan_cases lc;
    cbn [startup_error start_outcome launch_outcome new_page_outcome];
    try discriminate;
    intros [= ->] _; destruct e; cbn;
    (split; [ reflexivity | intuition discriminate ]).
Qed.

(** X13. A failing cleanup step decides how the lifespan ends: when the close
    step runs and raises, the lifespan raises the exception of the close
    step, and when the stop step runs and raises, that of the stop step,
    whatever happened before; a startup error that was on its way is
    replaced. *)
Theorem cleanup_failure_replaces_the_outcome (lc : lifecycle) (e : exn) :
  (browser_created lc = true ->
   close_outcome lc = Raised e ->
   fst (lifespan lc initial_frame) = Raised e)
  /\ (driver_started lc = true ->
      (browser_created lc = true -> returns (close_outcome lc) = true) ->
      stop_outcome lc = Raised e ->
      fst (lifespan lc initial_frame) = Raised e).
Proof.
  split.
  - lifespan_cases lc;
      cbn [browser_created start_outcome launch_outcome close_outcome
           returns andb];
      intros Hcreated Hclose; try discriminate;
      injection Hclose as ->;
      try (destruct en); try (destruct ev); reflexivity.
  - lifespan_cases lc;
      cbn [browser_created driver_started start_outcome launch_outcome
           close_outcome stop_outcome returns andb];
      intros Hstarted Hclose Hstop; try discriminate;
      try (specialize (Hclose eq_refl); discriminate);
      injection Hstop as ->;
      try (destruct el); try (destruct en); try (destruct ev); reflexivity.
Qed.

(** X14. The release calls come in one order: the browser is closed first, the
    driver is stopped after, and the driver is never stopped before a
    browser that is to be closed. *)
Theorem releases_in_order (lc : lifecycle) :
  releases (snd (lifespan lc initial_frame))
  = ((if browser_created lc then [BrowserClose] else [])
     ++ (if driver_started lc
            && (negb (browser_created lc) || returns (close_outcome lc))
         then [PlaywrightStop] else []))%list.
Proof.
  lifespan_cases lc;
    try (destruct es); try (destruct el); try (destruct en);
    try (destruct ev); reflexivity.
Qed.

(** X15. An exception that reaches the generator while the server is serving
    takes the same path as a startup error: it is raised again by the
    lifespan after the cleanup has closed the browser and stopped the
    driver, once each, and, when it is an [Exception], after one error line
    that reports it as an initialisation error. *)
Theorem crash_while_serving_is_cleaned_up (lc : lifecycle) (e : exn) :
  startup_error lc = None ->
  serve_outcome lc = Raised e ->
  cleanup_returns lc = true ->
  fst (lifespan lc initial_frame) = Raised e
  /\ releases (snd (lifespan lc initial_frame)) = [BrowserClose; PlaywrightStop]
  /\ (isinstance e cls_Exception = true ->
      In (LogError ("Error saat inisialisasi browser: " +:+ str e))
         (calls (globals (snd (lifespan lc initial_frame))))).
Proof.
  lifespan_cases lc;
    cbn [startup_error start_outcome launch_outcome new_page_outcome
         serve_outcome];
    try discriminate;
    intros _ Hserve Hcleanup; try discriminate;
    injection Hserve as ->;
    destruct e; cbn;
    (split; [ reflexivity | split; [ reflexivity | ] ]);
    intros Hclass; try discriminate; intuition.
Qed.

(** X16. The lifespan sets the globals and never clears them: when it has
    ended, [browser] holds the browser that was launched, if one was, and
    [page] the page that was opened, if one was, closed or not; [page] is
    never set without [browser]. *)
Theorem lifespan_never_clears_the_globals (lc : lifecycle) :
  browser (globals (snd (lifespan lc initial_frame)))
  = match start_outcome lc, launch_outcome lc with
    | Returned _, Returned b => Some b
    | _, _ => None
    end
  /\ page (globals (snd (lifespan lc initial_frame)))
     = match start_outcome lc, launch_outcome lc, new_page_outcome lc with
       | Returned _, Returned _, Returned pg => Some pg
       | _, _, _ => None
       end.
Proof.
  lifespan_cases lc;
    try (destruct es); try (destruct el); try (destruct en);
    try (destruct ev); split; reflexivity.
Qed.

Lemma count_snoc (p : event -> bool) (l : list event) (ev : event) :
  length (List.filter p (l ++ [ev]))
  = (length (List.filter p l) + (if p ev then 1 else 0))%nat.
Proof.
  rewrite List.filter_app, length_app. cbn [List.filter].
  destruct (p ev); reflexivity.
Qed.

(** X17. The cleanup decides on the global [browser], not on what this call of
    the lifespan created: in a process where an earlier lifespan has left
    its browser in the global, a later lifespan whose driver cannot even
    be started closes that browser once more, and stops no driver. *)
Theorem stale_browser_is_closed_again
        (lc : lifecycle) (s : state) (b0 : Browser) (e : exn) :
  browser s = Some b0 ->
  start_outcome lc = Raised e ->
  closes (snd (lifespan lc (fresh_frame s))) = S (closes (fresh_frame s))
  /\ stops (snd (lifespan lc (fresh_frame s))) = stops (fresh_frame s).
Proof.
  destruct lc as [start launch new_page serve close stop].
  cbn [start_outcome]. intros Hbrowser ->.
  unfold closes, stops, fresh_frame, lifespan, try_finally, try_except, bind,
    call, on_globals, get_browser, get_playwright, when, logger_info,
    logger_error, ret, raise.
  destruct e; cbn; rewrite Hbrowser; cbn;
    destruct close as [[] | ec]; cbn;
    rewrite !count_snoc; cbn [is_close is_stop]; split; lia.
Qed.

(** X18. The lifespan releases at shutdown, not before: from its first
    release call on, no [yield] follows, so whenever the server was served
    the browser was closed and the driver stopped only after the serving
    had ended. *)
Theorem releases_follow_the_yield (lc : lifecycle) :
  forallb (fun ev => negb (is_yield ev))
    (from_first_release (calls (globals (snd (lifespan lc initial_frame)))))
  = true.
Proof.
  lifespan_cases lc;
    try (destruct es); try (destruct el); try (destruct en);
    try (destruct ev); reflexivity.
Qed.

(** X19. A webhook that the target received and answered with JSON can
    still be answered with a 500: when [client.post] returns a response
    whose body parses to JSON that holds a number that is not finite (1e400,
    NaN), [JSONResponse] cannot render it and [POST /webhook/direct] replies
    HTTP 500 with the message of the [ValueError], after the POST has been
    made. *)
Theorem direct_route_fails_on_an_unrenderable_answer
        (w : world) (request : Request) (payload : json)
        (response : Response) (parsed : json) (s : state) :
  json_loads (body request) = Returned payload ->
  post_outcome w WEBHOOK_URL payload content_type_json = Returned response ->
  resp_content response <> "" ->
  json_loads (resp_content response) = Returned parsed ->
  renderable parsed = false ->
  fst (app w POST_webhook_direct request s)
  = Reply 500
      (JObj [("detail",
              JStr "Out of range float values are not JSON compliant")])
  /\ posts (snd (app w POST_webhook_direct request s))
     = (posts s ++ [ClientPost WEBHOOK_URL payload content_type_json])%list.
Proof.
  intros Hloads Hpost Hfull Hparsed Hrender.
  rewrite app_direct; cbn [fst snd].
  split; [ | apply posts_direct_parsed, Hloads ].
  rewrite (receive_webhook_direct_parsed w request payload s Hloads); cbv zeta.
  rewrite Hpost, (upstream_body_full response Hfull), Hparsed, Hrender.
  reflexivity.
Qed.

End Further.

(** * Instances *)

#[local] Existing Instance Sample.platform.


Lemma unreachable_driver_errors :
  driver_errors_are_exceptions Sample.unreachable Sample.url.
Proof.
  split; intros e H; [ | discriminate H ].
  injection H as <-. reflexivity.
Defined.

Lemma unreachable_is_unreachable :
  target_unreachable Sample.unreachable Sample.url.
Proof.
  split; [ | split ].
  - eexists; reflexivity.
  - intros init; eexists; reflexivity.
  - intros payload headers; eexists; reflexivity.
Defined.

(** C1: the body [42] on [/webhook] is answered with 500. *)
Lemma webhook_answers_500_to_42 :
  exists s',
    app Sample.online POST_webhook (mkRequest "42") Sample.ready
    = (Reply 500 (error_body "400: Payload harus berupa JSON object"), s')
    /\ browser_calls s' = [].
Proof.
  exact (webhook_non_object_payload_answers_500
           Sample.online (mkRequest "42") (JInt 42) Sample.ready
           eq_refl eq_refl).
Defined.

(** C2: the claim as stated fails when nothing listens at the target: the
    result of [/webhook] is a browser error, not a network error. *)
Lemma unreachable_target_is_not_a_network_error :
  target_unreachable Sample.unreachable Sample.url
  /\ json_loads "{}" = Returned (JObj [])
  /\ ~ network_error_reply
        (fst (app Sample.unreachable POST_webhook (mkRequest "{}") Sample.ready)).
Proof.
  split; [ exact unreachable_is_unreachable | split; [ reflexivity | ] ].
  intros (c & result & Hreply & Hresult & Hstatus & _).
  vm_compute in Hreply. injection Hreply as <-.
  vm_compute in Hresult. injection Hresult as <-.
  discriminate Hstatus.
Qed.

(** C2, amended, at the same input. *)
Lemma unreachable_target_asymmetry_sample :
  (exists c result,
      fst (app Sample.unreachable POST_webhook (mkRequest "{}") Sample.ready)
      = Reply 200 c
      /\ field "result" c = Some result
      /\ field "status" result = Some (JInt 500)
      /\ field "statusText" result = Some (JStr "Browser Error"))
  /\ (exists detail,
        fst (app Sample.unreachable POST_webhook_direct (mkRequest "{}")
                 Sample.ready)
        = Reply 500 (JObj [("detail", JStr detail)])).
Proof.
  apply (unreachable_target_asymmetry
           Sample.unreachable (mkRequest "{}") [] Sample.ready).
  - reflexivity.
  - exact unreachable_is_unreachable.
Defined.

(** The target that goes away after the navigation is the one that gets
    the network error. *)
Lemma lost_target_is_a_network_error :
  network_error_reply
    (fst (app Sample.lost_after_navigation POST_webhook (mkRequest "{}")
              Sample.ready)).
Proof.
  apply (webhook_fetch_rejected_is_network_error
           Sample.lost_after_navigation (mkRequest "{}") [] Sample.ready
           (PageObj 0) "Failed to fetch");
    reflexivity.
Qed.

(** C3: the malformed body is answered with 500 on [/webhook/direct], and
    the body [42] is posted to the target. *)
Lemma direct_route_does_not_validate_sample :
  fst (app Sample.not_found POST_webhook_direct (mkRequest "{invalid")
           Sample.ready)
  = Reply 500 (error_body "Expecting value: line 1 column 1 (char 0)")
  /\ posts (snd (app Sample.not_found POST_webhook_direct (mkRequest "42")
                    Sample.ready))
     = [ClientPost Sample.url (JInt 42) content_type_json].
Proof.
  split.
  - apply (proj1 (direct_route_does_not_validate
                    Sample.not_found (mkRequest "{invalid") Sample.ready)
                 "Expecting value: line 1 column 1 (char 0)").
    reflexivity.
  - apply (proj2 (direct_route_does_not_validate
                    Sample.not_found (mkRequest "42") Sample.ready)
                 (JInt 42)); reflexivity.
Defined.

(** C4: the adapter returns when the navigation raises. *)
Lemma forward_via_browser_never_raises_sample :
  exists result s',
    forward_via_browser Sample.unreachable (JObj []) Sample.ready
    = (Returned result, s')
    /\ (forall e,
          raised_while_driving Sample.unreachable WEBHOOK_URL Sample.ready e ->
          result = JObj [("status", JInt 500);
                         ("statusText", JStr "Browser Error");
                         ("error", JStr (str e))]).
Proof.
  apply (forward_via_browser_never_raises
           Sample.unreachable (JObj []) Sample.ready).
  exact unreachable_driver_errors.
Defined.



(** C6: the claim as stated fails on a body that is no text at all: the
    decoder raises [UnicodeDecodeError], which is not a [JSONDecodeError],
    and the reply is a 500. *)
Lemma undecodable_body_answers_500 :
  json_loads Sample.byte_ff
  = Raised (OtherException
              "'utf-8' codec can't decode byte 0xff in position 0: invalid start byte")
  /\ fst (app Sample.online POST_webhook (mkRequest Sample.byte_ff)
               Sample.ready)
     = Reply 500
         (error_body
            "'utf-8' codec can't decode byte 0xff in position 0: invalid start byte").
Proof. split; reflexivity. Qed.

(** A body that is not JSON by the RFC but that [json.loads] accepts is
    forwarded like any object. *)
Lemma nan_object_is_forwarded :
  json_loads Sample.nan_object = Returned (JObj [("a", JFloat nan)])
  /\ exists c,
       fst (app Sample.online POST_webhook (mkRequest Sample.nan_object)
                Sample.ready)
       = Reply 200 c.
Proof. split; [ reflexivity | eexists; reflexivity ]. Qed.

(** C6: the body [{invalid] is answered with 400. *)
Lemma webhook_malformed_json_answers_400_sample :
  app Sample.online POST_webhook (mkRequest "{invalid") Sample.ready
  = (Reply 400 (JObj [("detail", JStr "Invalid JSON payload")]),
     emit (LogError "Invalid JSON payload") Sample.ready).
Proof.
  apply (webhook_malformed_json_answers_400
           Sample.online (mkRequest "{invalid")
           "Expecting value: line 1 column 1 (char 0)" Sample.ready).
  reflexivity.
Defined.



(** C9: after a clean startup and shutdown request, the close step
    raises: the browser is closed once, the driver, which was started, is
    not stopped. *)
Lemma close_failure_skips_the_stop_sample :
  driver_started Sample.close_fails = true
  /\ closes (snd (lifespan Sample.close_fails initial_frame)) = 1%nat
  /\ stops (snd (lifespan Sample.close_fails initial_frame)) = 0%nat
  /\ fst (lifespan Sample.close_fails initial_frame)
     = Raised (OtherException "Connection closed").
Proof.
  apply (close_failure_skips_the_stop Sample.close_fails); reflexivity.
Defined.

(** Chromium fails to launch: nothing is closed, the driver is stopped
    once. *)
Lemma launch_failure_stops_the_driver :
  closes (snd (lifespan Sample.launch_fails initial_frame)) = 0%nat
  /\ stops (snd (lifespan Sample.launch_fails initial_frame)) = 1%nat.
Proof. split; reflexivity. Qed.

(** A clean run closes the browser and stops the driver, once each. *)
Lemma clean_run_releases_both :
  closes (snd (lifespan Sample.clean_run initial_frame)) = 1%nat
  /\ stops (snd (lifespan Sample.clean_run initial_frame)) = 1%nat.
Proof. split; reflexivity. Qed.




(** ** Instances of the further properties *)


(** A request before the lifespan has set the page. *)
Lemma webhook_without_a_page_sample :
  fst (app Sample.online POST_webhook (mkRequest "{}") initial_state)
  = Reply 200
      (webhook_envelope WEBHOOK_URL
         (JObj [("status", JInt 500);
                ("statusText", JStr "Browser Error");
                ("error", JStr "'NoneType' object has no attribute 'goto'")]))
  /\ browser_calls
       (snd (app Sample.online POST_webhook (mkRequest "{}") initial_state))
     = [].
Proof.
  exact (webhook_without_a_page
           (platform := Sample.platform)
           Sample.online (mkRequest "{}") [] initial_state eq_refl eq_refl).
Defined.


(** The reply to [42] on [/webhook] has one of the three statuses. *)
Lemma routes_status_codes_sample :
  (500 = 200 \/ 500 = 400 \/ 500 = 500)%Z.
Proof.
  exact (proj1 (routes_status_codes
                  (platform := Sample.platform)
                  Sample.online (mkRequest "42") Sample.ready)
               500 (error_body "400: Payload harus berupa JSON object")
               eq_refl).
Defined.

(** The 500 for [42] comes after an error line. *)
Lemma errors_are_logged_before_the_reply_sample :
  exists msg,
    last_call (snd (app Sample.online POST_webhook (mkRequest "42")
                        Sample.ready))
    = Some (LogError msg).
Proof.
  apply (errors_are_logged_before_the_reply
           (platform := Sample.platform)
           Sample.online POST_webhook (mkRequest "42") Sample.ready
           500 (error_body "400: Payload harus berupa JSON object")).
  - reflexivity.
  - discriminate.
Defined.

(** The target answers 200 with the text [OK]: the route replies 500 after
    the POST. *)
Lemma direct_route_fails_on_a_non_json_answer_sample :
  fst (app Sample.plain_text POST_webhook_direct (mkRequest "{}") Sample.ready)
  = Reply 500
      (JObj [("detail", JStr "Expecting value: line 1 column 1 (char 0)")])
  /\ posts (snd (app Sample.plain_text POST_webhook_direct (mkRequest "{}")
                     Sample.ready))
     = [ClientPost WEBHOOK_URL (JObj []) content_type_json].
Proof.
  apply (direct_route_fails_on_a_non_json_answer
           (platform := Sample.platform)
           Sample.plain_text (mkRequest "{}") (JObj [])
           {| resp_status_code := 200; resp_content := "OK" |}
           (JSONDecodeError "Expecting value: line 1 column 1 (char 0)")
           Sample.ready).
  - reflexivity.
  - reflexivity.
  - discriminate.
  - reflexivity.
  - reflexivity.
Defined.

(** No page can be opened: the lifespan raises that error and never
    serves. *)
Lemma startup_failure_fails_the_lifespan_sample :
  fst (lifespan Sample.new_page_fails initial_frame)
  = Raised (OtherException "Target closed")
  /\ ~ In Yield (calls (globals (snd (lifespan Sample.new_page_fails
                                        initial_frame)))).
Proof.
  apply (startup_failure_fails_the_lifespan Sample.new_page_fails);
    reflexivity.
Defined.

(** No page can be opened and the browser cannot be closed: the lifespan
    raises the error of the close step. *)
Lemma cleanup_failure_replaces_the_outcome_sample :
  fst (lifespan Sample.double_failure initial_frame)
  = Raised (OtherException "Connection closed").
Proof.
  apply (proj1 (cleanup_failure_replaces_the_outcome
                  Sample.double_failure
                  (OtherException "Connection closed")));
    reflexivity.
Defined.

(** A crash while serving. *)
Lemma crash_while_serving_is_cleaned_up_sample :
  fst (lifespan Sample.crash_while_serving initial_frame)
  = Raised (OtherException "worker crashed")
  /\ releases (snd (lifespan Sample.crash_while_serving initial_frame))
     = [BrowserClose; PlaywrightStop]
  /\ (isinstance (OtherException "worker crashed") cls_Exception = true ->
      In (LogError ("Error saat inisialisasi browser: "
                    +:+ str (OtherException "worker crashed")))
         (calls (globals (snd (lifespan Sample.crash_while_serving
                                 initial_frame))))).
Proof.
  apply (crash_while_serving_is_cleaned_up Sample.crash_while_serving);
    reflexivity.
Defined.

(** A clean run followed, in the same process, by a run whose driver does
    not start: the browser of the first run is closed a second time. *)
Lemma stale_browser_is_closed_again_sample :
  closes (snd (lifespan Sample.start_fails
                 (fresh_frame
                    (globals (snd (lifespan Sample.clean_run initial_frame))))))
  = 2%nat
  /\ stops (snd (lifespan Sample.start_fails
                   (fresh_frame
                      (globals (snd (lifespan Sample.clean_run initial_frame))))))
     = 1%nat.
Proof.
  exact (stale_browser_is_closed_again
           Sample.start_fails
           (globals (snd (lifespan Sample.clean_run initial_frame)))
           (BrowserObj 0) (OtherException "Driver not found")
           eq_refl eq_refl).
Defined.

(** The target answers 404 with the body [1e400]: the route replies 500
    after the POST. *)
Lemma direct_route_fails_on_an_unrenderable_answer_sample :
  fst (app Sample.overflow POST_webhook_direct (mkRequest "{}") Sample.ready)
  = Reply 500
      (JObj [("detail",
              JStr "Out of range float values are not JSON compliant")])
  /\ posts (snd (app Sample.overflow POST_webhook_direct (mkRequest "{}")
                     Sample.ready))
     = [ClientPost WEBHOOK_URL (JObj []) content_type_json].
Proof.
  apply (direct_route_fails_on_an_unrenderable_answer
           (platform := Sample.platform)
           Sample.overflow (mkRequest "{}") (JObj [])
           {| resp_status_code := 404; resp_content := "1e400" |}
           (JFloat inf) Sample.ready);
    [ reflexivity | reflexivity | discriminate | reflexivity | reflexivity ].
Defined.
